(** * A data-exploration dashboard: filters and scatter plot

    Shallow embedding of [filter_manager.py], [scatter_plot_manager.py] and
    [data_generator.py].  A pandas frame is a list of rows under a typed
    header, a Python exception is a value of [exn], a widget is the record of
    the attributes the code reads and writes.

    Numbers are exact: the cells of a numeric column are rationals (every
    finite double is one), a missing value is [VNaN], and the arithmetic of
    the size mapping is done in the reals.  Rounding is not part of the
    model. *)

From Stdlib Require Import List String Ascii Bool Arith PeanoNat ZArith QArith.
From Stdlib Require Import DecimalString DecimalNat Permutation Lia.
From Stdlib Require Import Reals Rpower Lra Qreals.
Import ListNotations.

Close Scope R_scope.
Close Scope Q_scope.
Close Scope Z_scope.
Open Scope string_scope.
Open Scope list_scope.
Open Scope nat_scope.

Set Implicit Arguments.

(** ** Python exceptions and the error monad *)

Inductive exn : Type :=
| ReError                 (* re.error *)
| KeyError (key : string) (* a column that the frame does not have *)
| TypeError.              (* an order comparison between a str and a number *)

Inductive result (A : Type) : Type :=
| Ok (a : A)
| Raise (e : exn).

Arguments Ok {A} a.
Arguments Raise {A} e.

Definition bind {A B : Type} (m : result A) (k : A -> result B) : result B :=
  match m with
  | Ok a => k a
  | Raise e => Raise e
  end.

Declare Scope py_scope.
Delimit Scope py_scope with py.
Notation "x <- m ;; k" := (bind m (fun x => k))
  (at level 61, m at next level, right associativity) : py_scope.
Open Scope py_scope.

Fixpoint mapM {A B : Type} (f : A -> result B) (l : list A) : result (list B) :=
  match l with
  | [] => Ok []
  | a :: l' => b <- f a ;; bs <- mapM f l' ;; Ok (b :: bs)
  end.

(** ** Cells, rows and frames *)

Inductive scalar : Type :=
| VNum (x : Q)
| VStr (s : string)
| VNaN.

Inductive dtype : Type :=
| Number     (* int64, float64 *)
| Object     (* Python objects: strings, None/NaN *)
| Datetime.  (* datetime64 *)

Record Row : Type := { index : nat; cells : list scalar }.

Record DataFrame : Type := { columns : list (string * dtype); rows : list Row }.

Definition with_rows (df : DataFrame) (rs : list Row) : DataFrame :=
  {| columns := columns df; rows := rs |}.

(** [df.empty]: one of the two axes has length zero. *)
Definition empty (df : DataFrame) : bool :=
  match rows df, columns df with
  | [], _ => true
  | _, [] => true
  | _, _ => false
  end.

Fixpoint col_pos (c : string) (cols : list (string * dtype)) : option (nat * dtype) :=
  match cols with
  | [] => None
  | (c', t) :: cols' =>
      if String.eqb c c' then Some (0, t)
      else match col_pos c cols' with
           | Some (i, t') => Some (S i, t')
           | None => None
           end
  end.

(** [df[column]]: position and dtype of the column, or KeyError. *)
Definition getitem (df : DataFrame) (c : string) : result (nat * dtype) :=
  match col_pos c (columns df) with
  | Some p => Ok p
  | None => Raise (KeyError c)
  end.

Definition in_columns (c : string) (df : DataFrame) : bool :=
  match col_pos c (columns df) with Some _ => true | None => false end.

Definition cell (i : nat) (r : Row) : scalar := nth i (cells r) VNaN.

Definition is_numeric_dtype (t : dtype) : bool :=
  match t with Number => true | _ => false end.

Definition isna (v : scalar) : bool :=
  match v with VNaN => true | _ => false end.

(** Equality of cells as pandas' hash tables see it ([unique], [isin]):
    two missing values are the same key. *)
Definition value_eqb (a b : scalar) : bool :=
  match a, b with
  | VNum x, VNum y => Qeq_bool x y
  | VStr s, VStr t => String.eqb s t
  | VNaN, VNaN => true
  | _, _ => false
  end.

Definition isin (v : scalar) (vs : list scalar) : bool := existsb (value_eqb v) vs.

(** [Series.unique()]: distinct values in order of first appearance. *)
Fixpoint unique_acc (seen : list scalar) (l : list scalar) : list scalar :=
  match l with
  | [] => []
  | v :: l' => if isin v seen then unique_acc seen l'
               else v :: unique_acc (v :: seen) l'
  end.

Definition unique (l : list scalar) : list scalar := unique_acc [] l.

(** [Series.nunique()]: missing values are not counted. *)
Definition nunique (l : list scalar) : nat :=
  List.length (unique (filter (fun v => negb (isna v)) l)).

Definition column_values (i : nat) (df : DataFrame) : list scalar :=
  map (cell i) (rows df).

(** Python truth value of a str and of a list. *)
Definition truthy_str (s : string) : bool :=
  match s with EmptyString => false | _ => true end.

Definition truthy_list {A : Type} (l : list A) : bool :=
  match l with [] => false | _ => true end.

(** ** What the code asks of the Python runtime

    [re.compile(pat, flags)] with the IGNORECASE flag set or not, and
    [search] on the compiled pattern; [None] is re.error.  [float_str] is
    [str] on a float. *)

Class PyRuntime : Type := {
  regex : Type;
  re_compile : bool -> string -> option regex;
  re_search : regex -> string -> bool;
  float_str : Q -> string
}.

(** [Series.astype(str)]: [str] on every cell; the missing value becomes the
    three letters [nan]. *)
Definition astype_str `{PyRuntime} (v : scalar) : string :=
  match v with
  | VStr s => s
  | VNum x => float_str x
  | VNaN => "nan"
  end.

(** [Series.str.contains(pat, case, regex=True, na)] on a column of cells:
    the pattern is compiled once, a cell that is a string is searched, a
    missing cell gets [na]. *)
Definition str_contains `{PyRuntime} (pat : string) (case : bool) (na : bool)
    (col : list (option string)) : result (list bool) :=
  match re_compile (negb case) pat with
  | None => Raise ReError
  | Some r => Ok (map (fun c => match c with
                                | Some s => re_search r s
                                | None => na
                                end) col)
  end.

(** [n] characters [0], for padded formats. *)
Fixpoint zeros (n : nat) : string :=
  match n with O => EmptyString | S n' => String "0" (zeros n') end.

(** [df[mask]] *)
Fixpoint select {A : Type} (l : list A) (mask : list bool) : list A :=
  match l, mask with
  | a :: l', b :: mask' => if b then a :: select l' mask' else select l' mask'
  | _, _ => []
  end.

(** ** A concrete runtime for the scenarios

    [MiniRe] is the fragment of Python's [re] that the scenarios use:
    literal characters, [.] and bracketed character sets with ranges and
    negation, with or without IGNORECASE, on ASCII text.  Inside the fragment
    it fails where [re] fails (unterminated set, bad range).  A pattern that
    uses another metacharacter is outside the fragment and is refused too;
    the general results below do not depend on this engine, they hold for
    every [PyRuntime]. *)

Module MiniRe.

Inductive item : Type :=
| Lit (c : ascii)
| AnyChar
| CharSet (negated : bool) (ranges : list (ascii * ascii)).

Record pattern : Type := { items : list item; ignorecase : bool }.

Inductive mode : Type :=
| Top
| InSet (negated : bool) (set : list (ascii * ascii)).

Definition outside_fragment (c : ascii) : bool :=
  existsb (Ascii.eqb c)
    ["*"; "+"; "?"; "{"; "("; ")"; "|"; "\"; "^"; "$"]%char.

Definition cons_item (i : item) (r : option (list item)) : option (list item) :=
  match r with Some l => Some (i :: l) | None => None end.

(** One pass over the pattern.  In a set, a closing bracket that comes
    first is a member, [a-b] is a range and must not be reversed, and a
    hyphen before the closing bracket is a member. *)
Fixpoint parse (m : mode) (s : string) : option (list item) :=
  match m, s with
  | Top, EmptyString => Some []
  | Top, String c s' =>
      if Ascii.eqb c "[" then
        match s' with
        | String "^" s'' => parse (InSet true []) s''
        | _ => parse (InSet false []) s'
        end
      else if Ascii.eqb c "." then cons_item AnyChar (parse Top s')
      else if outside_fragment c then None
      else cons_item (Lit c) (parse Top s')
  | InSet _ _, EmptyString => None
  | InSet neg set, String this s' =>
      if Ascii.eqb this "]" && truthy_list set
      then cons_item (CharSet neg (rev set)) (parse Top s')
      else if Ascii.eqb this "\" then None
      else
        match s' with
        | String "-" EmptyString => None
        | String "-" (String that s'') =>
            if Ascii.eqb that "]"
            then cons_item (CharSet neg (rev (("-", "-") :: (this, this) :: set))%char)
                           (parse Top s'')
            else if Ascii.eqb that "\" then None
            else if (nat_of_ascii that <? nat_of_ascii this)%nat then None
            else parse (InSet neg ((this, that) :: set)) s''
        | _ => parse (InSet neg ((this, this) :: set)) s'
        end
  end.

Definition is_upper (c : ascii) : bool :=
  (65 <=? nat_of_ascii c)%nat && (nat_of_ascii c <=? 90)%nat.

Definition is_lower (c : ascii) : bool :=
  (97 <=? nat_of_ascii c)%nat && (nat_of_ascii c <=? 122)%nat.

Definition lower (c : ascii) : ascii :=
  if is_upper c then ascii_of_nat (nat_of_ascii c + 32) else c.

Definition upper (c : ascii) : ascii :=
  if is_lower c then ascii_of_nat (nat_of_ascii c - 32) else c.

Definition in_ranges (c : ascii) (rs : list (ascii * ascii)) : bool :=
  existsb (fun r => (nat_of_ascii (fst r) <=? nat_of_ascii c)%nat
                    && (nat_of_ascii c <=? nat_of_ascii (snd r))%nat) rs.

Definition item_matches (ic : bool) (i : item) (c : ascii) : bool :=
  match i with
  | Lit l => if ic then Ascii.eqb (lower c) (lower l) else Ascii.eqb c l
  | AnyChar => negb (Ascii.eqb c (ascii_of_nat 10))
  | CharSet neg rs =>
      xorb neg (if ic then in_ranges (lower c) rs || in_ranges (upper c) rs
                else in_ranges c rs)
  end.

(** The items match a prefix of [s]. *)
Fixpoint match_here (ic : bool) (l : list item) (s : string) : bool :=
  match l with
  | [] => true
  | i :: l' =>
      match s with
      | EmptyString => false
      | String c s' => item_matches ic i c && match_here ic l' s'
      end
  end.

(** [search]: the items match at some position of [s]. *)
Fixpoint search_in (ic : bool) (l : list item) (s : string) : bool :=
  match_here ic l s ||
  match s with
  | EmptyString => false
  | String _ s' => search_in ic l s'
  end.

Definition compile (ic : bool) (pat : string) : option pattern :=
  match parse Top pat with
  | Some l => Some {| items := l; ignorecase := ic |}
  | None => None
  end.

Definition search (p : pattern) (s : string) : bool :=
  search_in (ignorecase p) (items p) s.

(** [str] of a float whose decimal expansion is finite: the expansion
    itself, with at least one digit after the point. *)
Definition digits_of (n : N) : string :=
  NilZero.string_of_uint (N.to_uint n).

Definition float_repr (q : Q) : string :=
  let q := Qred q in
  let k := Nat.pred (Pos.size_nat (Qden q)) in
  let scaled := (Z.abs (Qnum q) * 5 ^ Z.of_nat k)%Z in
  let one := (10 ^ Z.of_nat k)%Z in
  let frac := digits_of (Z.to_N (scaled mod one)) in
  ((if (Qnum q <? 0)%Z then "-" else EmptyString)
   ++ digits_of (Z.to_N (scaled / one)) ++ "."
   ++ (if Nat.eqb k 0 then "0"
       else zeros (k - String.length frac) ++ frac))%string.

End MiniRe.

#[export] Instance mini_runtime : PyRuntime := {
  regex := MiniRe.pattern;
  re_compile := MiniRe.compile;
  re_search := MiniRe.search;
  float_str := MiniRe.float_repr
}.

(** ** Python's order on cells, [sorted], [min] and [max] *)

(** [a < b]: numbers and strings compare among themselves, a comparison with
    NaN is false, a str against a float raises TypeError. *)
Definition py_lt (a b : scalar) : result bool :=
  match a, b with
  | VNum x, VNum y => Ok (negb (Qle_bool y x))
  | VStr s, VStr t => Ok (String.ltb s t)
  | VStr _, _ | _, VStr _ => Raise TypeError
  | _, _ => Ok false
  end.

Fixpoint insert_sorted (x : scalar) (l : list scalar) : result (list scalar) :=
  match l with
  | [] => Ok [x]
  | y :: l' =>
      b <- py_lt x y ;;
      if b then Ok (x :: y :: l')
      else (r <- insert_sorted x l' ;; Ok (y :: r))
  end.

(** [sorted(l)], stable. *)
Definition py_sorted (l : list scalar) : result (list scalar) :=
  fold_left (fun acc x => a <- acc ;; insert_sorted x a) l (Ok []).

(** [Series.min()] and [Series.max()] of a numeric column: missing values
    are skipped, and the result is NaN ([None]) when nothing is left. *)
Fixpoint series_fold (pick : Q -> Q -> Q) (l : list scalar) : result (option Q) :=
  match l with
  | [] => Ok None
  | VNum x :: l' =>
      m <- series_fold pick l' ;;
      Ok (Some (match m with Some y => pick x y | None => x end))
  | VNaN :: l' => series_fold pick l'
  | VStr _ :: _ => Raise TypeError
  end.

Definition qmin (x y : Q) : Q := if Qle_bool x y then x else y.
Definition qmax (x y : Q) : Q := if Qle_bool x y then y else x.

Definition series_min : list scalar -> result (option Q) := series_fold qmin.
Definition series_max : list scalar -> result (option Q) := series_fold qmax.

(** [cell >= bound] and [cell <= bound] on a column cell and a float bound
    ([None] is NaN). *)
Definition ge (v : scalar) (bound : option Q) : result bool :=
  match v with
  | VNum x => Ok (match bound with Some b => Qle_bool b x | None => false end)
  | VNaN => Ok false
  | VStr _ => Raise TypeError
  end.

Definition le (v : scalar) (bound : option Q) : result bool :=
  match v with
  | VNum x => Ok (match bound with Some b => Qle_bool x b | None => false end)
  | VNaN => Ok false
  | VStr _ => Raise TypeError
  end.

(** ** filter_manager.py *)

Module FilterManager.

(** An entry of [active_filters]: the ['type'] tag together with the
    current [value] of the widget it goes with (RangeSlider, MultiSelect,
    TextInput). *)
Inductive filter_info : Type :=
| numeric (value : option Q * option Q)
| categorical (value : list scalar)
| text (value : string).

(** The manager's own state.  [active_filters] is a dict: unique keys in
    insertion order.  [column_selector] is the value of the selector. *)
Record state : Type := {
  original_data : DataFrame;
  filtered_data : DataFrame;
  active_filters : list (string * filter_info);
  column_selector : option string
}.

(** A method: it returns normally or raises, and leaves a state. *)
Definition method : Type := state -> result unit * state.

Definition set_filtered_data (self : state) (d : DataFrame) : state :=
  {| original_data := original_data self; filtered_data := d;
     active_filters := active_filters self;
     column_selector := column_selector self |}.

Definition set_active_filters (self : state)
    (fs : list (string * filter_info)) : state :=
  {| original_data := original_data self; filtered_data := filtered_data self;
     active_filters := fs; column_selector := column_selector self |}.

Definition set_column_selector (self : state) (c : option string) : state :=
  {| original_data := original_data self; filtered_data := filtered_data self;
     active_filters := active_filters self; column_selector := c |}.

(** [column in d], [del d[column]], [d[column] = v] on a dict. *)
Definition dict_mem {V : Type} (c : string) (d : list (string * V)) : bool :=
  existsb (fun kv => String.eqb c (fst kv)) d.

Definition dict_del {V : Type} (c : string) (d : list (string * V)) : list (string * V) :=
  filter (fun kv => negb (String.eqb c (fst kv))) d.

Fixpoint dict_set {V : Type} (c : string) (v : V) (d : list (string * V)) : list (string * V) :=
  match d with
  | [] => [(c, v)]
  | (k, w) :: d' => if String.eqb c k then (k, v) :: d' else (k, w) :: dict_set c v d'
  end.

Definition __init__ (data : DataFrame) : state :=
  {| original_data := data;
     filtered_data := data;
     active_filters := [];
     column_selector := match columns data with
                        | [] => None
                        | (c, _) :: _ => Some c
                        end |}.

Section WithRuntime.
Context `{PyRuntime}.

(** The body of the loop of [_apply_filters] for one entry. *)
Definition apply_filter (column : string) (info : filter_info)
    (filtered_data : DataFrame) : result DataFrame :=
  match info with
  | numeric (min_val, max_val) =>
      p <- getitem filtered_data column ;;
      mask <- mapM (fun r => a <- ge (cell (fst p) r) min_val ;;
                             b <- le (cell (fst p) r) max_val ;;
                             Ok (a && b))
                   (rows filtered_data) ;;
      Ok (with_rows filtered_data (select (rows filtered_data) mask))
  | categorical selected_values =>
      if truthy_list selected_values then
        p <- getitem filtered_data column ;;
        Ok (with_rows filtered_data
              (select (rows filtered_data)
                 (map (fun r => isin (cell (fst p) r) selected_values)
                      (rows filtered_data))))
      else Ok filtered_data
  | text pattern =>
      if truthy_str pattern then
        match (p <- getitem filtered_data column ;;
               mask <- str_contains pattern false false
                         (map (fun r => Some (astype_str (cell (fst p) r)))
                              (rows filtered_data)) ;;
               Ok (with_rows filtered_data (select (rows filtered_data) mask)))
        with
        | Raise ReError => Ok filtered_data
        | r => r
        end
      else Ok filtered_data
  end.

Fixpoint for_filters (fs : list (string * filter_info))
    (filtered_data : DataFrame) : result DataFrame :=
  match fs with
  | [] => Ok filtered_data
  | (column, info) :: fs' =>
      d <- apply_filter column info filtered_data ;;
      for_filters fs' d
  end.

(** [_apply_filters]: the frame is rebuilt from [original_data]; the
    attribute is assigned after the loop, so an exception leaves it as
    it was.  The observer that is called last does not touch the
    manager. *)
Definition _apply_filters : method := fun self =>
  match for_filters (active_filters self) (original_data self) with
  | Ok d => (Ok tt, set_filtered_data self d)
  | Raise e => (Raise e, self)
  end.

Definition _create_numeric_filter (col_data : list scalar) : result filter_info :=
  min_val <- series_min col_data ;;
  max_val <- series_max col_data ;;
  Ok (numeric (min_val, max_val)).

Definition _create_categorical_filter (col_data : list scalar) : result filter_info :=
  unique_values <- py_sorted (unique col_data) ;;
  Ok (categorical unique_values).

Definition _create_text_filter (col_data : list scalar) : result filter_info :=
  Ok (text EmptyString).

Definition _create_filter_widget (self : state) (column : string) : result filter_info :=
  p <- getitem (original_data self) column ;;
  let col_data := column_values (fst p) (original_data self) in
  if is_numeric_dtype (snd p) then _create_numeric_filter col_data
  else if nunique col_data <? 10 then _create_categorical_filter col_data
  else _create_text_filter col_data.

Definition _add_filter : method := fun self =>
  match column_selector self with
  | Some column =>
      if truthy_str column && negb (dict_mem column (active_filters self)) then
        match _create_filter_widget self column with
        | Ok filter_widget =>
            _apply_filters
              (set_active_filters self
                 (dict_set column filter_widget (active_filters self)))
        | Raise e => (Raise e, self)
        end
      else (Ok tt, self)
  | None => (Ok tt, self)
  end.

Definition _remove_filter (column : string) : method := fun self =>
  if dict_mem column (active_filters self) then
    _apply_filters
      (set_active_filters self (dict_del column (active_filters self)))
  else (Ok tt, self).

(** The user moves a slider, changes a selection or types a pattern: the
    widget of [column] takes the new value and its watcher runs
    [_apply_filters].  A widget only takes a value of its own kind. *)
Definition same_kind (a b : filter_info) : bool :=
  match a, b with
  | numeric _, numeric _ | categorical _, categorical _ | text _, text _ => true
  | _, _ => false
  end.

Fixpoint widget_assign (column : string) (v : filter_info)
    (d : list (string * filter_info)) : option (list (string * filter_info)) :=
  match d with
  | [] => None
  | (k, w) :: d' =>
      if String.eqb column k then
        if same_kind w v then Some ((k, v) :: d') else None
      else match widget_assign column v d' with
           | Some r => Some ((k, w) :: r)
           | None => None
           end
  end.

Definition update_filter (column : string) (v : filter_info) : method := fun self =>
  match widget_assign column v (active_filters self) with
  | Some fs => _apply_filters (set_active_filters self fs)
  | None => (Ok tt, self)
  end.

(** The user picks a column in the selector; only the frame's columns
    are on offer. *)
Definition select_column (c : string) : method := fun self =>
  if in_columns c (original_data self)
  then (Ok tt, set_column_selector self (Some c))
  else (Ok tt, self).

(** The events of the user interface and the states they lead to. *)
Inductive event : Type :=
| SelectColumn (c : string)
| AddFilter
| RemoveFilter (c : string)
| UpdateFilter (c : string) (v : filter_info).

Definition handle (e : event) : method :=
  match e with
  | SelectColumn c => select_column c
  | AddFilter => _add_filter
  | RemoveFilter c => _remove_filter c
  | UpdateFilter c v => update_filter c v
  end.

Inductive reachable (data : DataFrame) : state -> Prop :=
| reach_init : reachable data (__init__ data)
| reach_step : forall self e,
    reachable data self -> reachable data (snd (handle e self)).

(** The frame that [_apply_filters] computes for a registry. *)
Definition recompute (self : state) : result DataFrame :=
  for_filters (active_filters self) (original_data self).

End WithRuntime.

End FilterManager.

(** ** data_generator.py *)

Module DataGenerator.

(** The cells of a row that come out of numpy's seeded generator and of
    the float arithmetic on its draws (clipping, the two correlations, the
    revenue): the generator is not modelled, the frame is built from the
    values it ends with. *)
Record Draw : Type := {
  price : Q; quantity : Q; rating : Q; discount_pct : Q; revenue : Q;
  category : string; region : string; customer_type : string;
  purchase_date : string
}.

Definition str_int (i : nat) : string := NilZero.string_of_uint (Nat.to_uint i).

(** The format [{i:04d}]. *)
Definition format_04d (i : nat) : string :=
  let s := str_int i in (zeros (4 - String.length s) ++ s)%string.

Definition product_name (i : nat) : string := ("Product_" ++ format_04d i)%string.

Definition description (i : nat) : string :=
  ("Description for product " ++ str_int i)%string.

Definition generate_example_data (draw : nat -> Draw) (n_samples : nat) : DataFrame :=
  {| columns :=
       [("price", Number); ("quantity", Number); ("rating", Number);
        ("discount_pct", Number); ("revenue", Number);
        ("category", Object); ("region", Object); ("customer_type", Object);
        ("product_name", Object); ("description", Object);
        ("purchase_date", Datetime)];
     rows :=
       map (fun i =>
              let d := draw i in
              {| index := i;
                 cells := [VNum (price d); VNum (quantity d); VNum (rating d);
                           VNum (discount_pct d); VNum (revenue d);
                           VStr (category d); VStr (region d);
                           VStr (customer_type d);
                           VStr (product_name i); VStr (description i);
                           VStr (purchase_date d)] |})
           (seq 0 n_samples) |}.

End DataGenerator.

(** ** scatter_plot_manager.py *)

(** [x ** g] for a normalised [x] (never negative) in exact arithmetic.  At
    [x = 0] a positive exponent gives 0 and the exponent 0 gives 1 (a
    negative exponent would give numpy's inf, which the reals do not have;
    the Gamma input is bounded below by 0.1). *)
Definition np_power (x g : R) : R :=
  if Rlt_dec 0 x then Rpower x g
  else if Rlt_dec 0 g then 0%R else 1%R.

Module ScatterPlotManager.

(** A [pn.widgets.Select] as the code uses it: two attributes that are
    read and assigned.  What the toolkit itself does with a value that is
    no longer among the options is not in this code and not modelled. *)
Record Select : Type := { value : option string; options : list (option string) }.

Record state : Type := {
  x_selector : Select;
  y_selector : Select;
  size_selector : Select;
  color_selector : Select;
  min_size_input : Z;
  max_size_input : Z;
  gamma_input : Q;
  palette_selector : string;
  x_column : option string;
  y_column : option string;
  plot_update_trigger : nat
}.

Definition __init__ : state :=
  {| x_selector := {| value := None; options := [] |};
     y_selector := {| value := None; options := [] |};
     size_selector := {| value := None; options := [None] |};
     color_selector := {| value := None; options := [None] |};
     min_size_input := 5%Z;
     max_size_input := 20%Z;
     gamma_input := 1%Q;
     palette_selector := "viridis";
     x_column := None;
     y_column := None;
     plot_update_trigger := 0 |}.

Definition opt_eqb (a b : option string) : bool :=
  match a, b with
  | Some s, Some t => String.eqb s t
  | None, None => true
  | _, _ => false
  end.

(** Every widget is watched by [trigger_update], which counts the changes
    of value. *)
Definition trigger_update (old new : option string) (n : nat) : nat :=
  if opt_eqb old new then n else S n.

Definition with_options (w : Select) (o : list (option string)) : Select :=
  {| value := value w; options := o |}.

Definition with_value (w : Select) (v : option string) : Select :=
  {| value := v; options := options w |}.

(** Column names with the position of the column, in frame order. *)
Fixpoint enumerate {A : Type} (i : nat) (l : list A) : list (nat * A) :=
  match l with
  | [] => []
  | a :: l' => (i, a) :: enumerate (S i) l'
  end.

Definition numeric_cols (data : DataFrame) : list string :=
  map fst (filter (fun c => is_numeric_dtype (snd c)) (columns data)).

Definition low_cardinality (data : DataFrame) (i : nat) : bool :=
  nunique (column_values i data) <? 10.

Definition is_object (t : dtype) : bool :=
  match t with Object => true | _ => false end.

Definition categorical_cols (data : DataFrame) : list (nat * (string * dtype)) :=
  filter (fun c => is_object (snd (snd c)) || low_cardinality data (fst c))
         (enumerate 0 (columns data)).

Definition axis_cols (data : DataFrame) : list string :=
  numeric_cols data
  ++ map (fun c => fst (snd c))
         (filter (fun c => low_cardinality data (fst c)) (categorical_cols data)).

Definition update_options (data : DataFrame) (self : state) : state :=
  if empty data then self
  else
    let axis := axis_cols data in
    let self1 :=
      {| x_selector := with_options (x_selector self) (map Some axis);
         y_selector := with_options (y_selector self) (map Some axis);
         size_selector :=
           with_options (size_selector self) (None :: map Some (numeric_cols data));
         color_selector :=
           with_options (color_selector self)
             (None :: map Some (numeric_cols data
                                ++ map (fun c => fst (snd c)) (categorical_cols data)));
         min_size_input := min_size_input self;
         max_size_input := max_size_input self;
         gamma_input := gamma_input self;
         palette_selector := palette_selector self;
         x_column := x_column self;
         y_column := y_column self;
         plot_update_trigger := plot_update_trigger self |} in
    let self2 :=
      match x_column self1, axis with
      | None, c :: _ =>
          {| x_selector := with_value (x_selector self1) (Some c);
             y_selector := y_selector self1;
             size_selector := size_selector self1;
             color_selector := color_selector self1;
             min_size_input := min_size_input self1;
             max_size_input := max_size_input self1;
             gamma_input := gamma_input self1;
             palette_selector := palette_selector self1;
             x_column := Some c;
             y_column := y_column self1;
             plot_update_trigger :=
               trigger_update (value (x_selector self1)) (Some c)
                              (plot_update_trigger self1) |}
      | _, _ => self1
      end in
    match y_column self2, axis with
    | None, _ :: c :: _ =>
        {| x_selector := x_selector self2;
           y_selector := with_value (y_selector self2) (Some c);
           size_selector := size_selector self2;
           color_selector := color_selector self2;
           min_size_input := min_size_input self2;
           max_size_input := max_size_input self2;
           gamma_input := gamma_input self2;
           palette_selector := palette_selector self2;
           x_column := x_column self2;
           y_column := Some c;
           plot_update_trigger :=
             trigger_update (value (y_selector self2)) (Some c)
                            (plot_update_trigger self2) |}
    | _, _ => self2
    end.

(** The user picks an entry of a selector. *)
Inductive selector : Type := SelX | SelY | SelSize | SelColor.

Definition widget_of (which : selector) (self : state) : Select :=
  match which with
  | SelX => x_selector self
  | SelY => y_selector self
  | SelSize => size_selector self
  | SelColor => color_selector self
  end.

Definition user_select (which : selector) (v : option string) (self : state) : state :=
  let bump w := trigger_update (value w) v (plot_update_trigger self) in
  if negb (existsb (opt_eqb v) (options (widget_of which self))) then self else
  {| x_selector := match which with SelX => with_value (x_selector self) v
                                   | _ => x_selector self end;
     y_selector := match which with SelY => with_value (y_selector self) v
                                   | _ => y_selector self end;
     size_selector := match which with SelSize => with_value (size_selector self) v
                                      | _ => size_selector self end;
     color_selector := match which with SelColor => with_value (color_selector self) v
                                       | _ => color_selector self end;
     min_size_input := min_size_input self;
     max_size_input := max_size_input self;
     gamma_input := gamma_input self;
     palette_selector := palette_selector self;
     x_column := x_column self;
     y_column := y_column self;
     plot_update_trigger :=
       match which with
       | SelX => bump (x_selector self)
       | SelY => bump (y_selector self)
       | SelSize => bump (size_selector self)
       | SelColor => bump (color_selector self)
       end |}.

(** *** create_plot *)

(** A cell of the frame that is plotted: a cell of the view, or a computed
    size ([None] is NaN). *)
Inductive pvalue : Type :=
| PCell (v : scalar)
| PSize (s : option R).

Record PlotFrame : Type := {
  pindex : list nat;
  pcolumns : list (string * list pvalue)
}.

(** [frame[name] = col] *)
Fixpoint assign_column (name : string) (col : list pvalue)
    (cs : list (string * list pvalue)) : list (string * list pvalue) :=
  match cs with
  | [] => [(name, col)]
  | (k, c) :: cs' =>
      if String.eqb name k then (k, col) :: cs'
      else (k, c) :: assign_column name col cs'
  end.

Definition setitem (f : PlotFrame) (name : string) (col : list pvalue) : PlotFrame :=
  {| pindex := pindex f; pcolumns := assign_column name col (pcolumns f) |}.

(** The ['size'] option: the name of a dimension of the data, or a
    number. *)
Inductive size_opt : Type :=
| SizeDim (dim : string)
| SizeFixed (n : Z).

Record plot_opts : Type := {
  width : Z;
  height : Z;
  tools : list string;
  size : size_opt;
  xlabel : string;
  ylabel : string;
  title : string;
  color : option string;
  cmap : option string;
  colorbar : bool;
  legend : option string
}.

Record Points : Type := {
  pdata : PlotFrame;
  kdims : list string;
  vdims : list string;
  opts : plot_opts
}.

Inductive pane : Type :=
| HTML (msg : string)
| ErrorHTML (e : exn)       (* "Error creating plot: ..." *)
| HoloViews (p : Points).

(** Truth value of a selector's value: [None] and the empty name are
    false. *)
Definition truthy (v : option string) : option string :=
  match v with
  | Some s => if truthy_str s then Some s else None
  | None => None
  end.

(** [max_val > min_val] on two floats; false when one of them is NaN. *)
Definition gt (a b : option Q) : bool :=
  match a, b with
  | Some x, Some y => negb (Qle_bool x y)
  | _, _ => false
  end.

(** The size of one point: the value is normalised between [min_val] and
    [max_val], raised to [gamma] and scaled into the size range. *)
Definition point_size (min_val max_val gamma : Q) (min_size max_size : Z)
    (v : scalar) : pvalue :=
  match v with
  | VNum x =>
      PSize (Some (IZR min_size
                   + np_power ((Q2R x - Q2R min_val) / (Q2R max_val - Q2R min_val))
                              (Q2R gamma)
                     * (IZR max_size - IZR min_size))%R)
  | _ => PSize None
  end.

(** [plot_data]: the X and Y columns of the rows where both are present. *)
Definition plotted_rows (px py : nat) (data : DataFrame) : list Row :=
  filter (fun r => negb (isna (cell px r)) && negb (isna (cell py r))) (rows data).

(** The size mapping: the frame with its ['size'] column and the value
    dimensions, or both unchanged.  The values are those of the plotted
    rows (index labels are unique, so [.loc] on the plotted index picks
    these rows). *)
Definition size_mapping (self : state) (data : DataFrame) (plot_rows : list Row)
    (size_col : option string) (f : PlotFrame) (value_dims : list string)
    : result (PlotFrame * list string) :=
  match truthy size_col with
  | Some sc =>
      match col_pos sc (columns data) with
      | Some (ps, t) =>
          let size_data := map (cell ps) plot_rows in
          if is_numeric_dtype t then
            min_val <- series_min size_data ;;
            max_val <- series_max size_data ;;
            if gt max_val min_val then
              match min_val, max_val with
              | Some mn, Some mx =>
                  let sizes :=
                    map (point_size mn mx (gamma_input self)
                           (min_size_input self) (max_size_input self)) size_data in
                  Ok (setitem f "size" sizes, value_dims ++ ["size"])
              | _, _ => Ok (f, value_dims)
              end
            else Ok (f, value_dims)
          else Ok (f, value_dims)
      | None => Ok (f, value_dims)
      end
  | None => Ok (f, value_dims)
  end.

Definition color_mapping (data : DataFrame) (plot_rows : list Row)
    (color_col : option string) (f : PlotFrame) (value_dims : list string)
    : PlotFrame * list string :=
  match truthy color_col with
  | Some cc =>
      match col_pos cc (columns data) with
      | Some (pc, _) =>
          (setitem f "color" (map (fun r => PCell (cell pc r)) plot_rows),
           value_dims ++ ["color"])
      | None => (f, value_dims)
      end
  | None => (f, value_dims)
  end.

(** The body of the [try] block. *)
Definition try_plot (self : state) (data : DataFrame) (x_col y_col : string)
    (size_col color_col : option string) : result pane :=
  px <- getitem data x_col ;;
  py <- getitem data y_col ;;
  let plot_rows := plotted_rows (fst px) (fst py) data in
  match plot_rows with
  | [] => Ok (HTML "<p>No valid data points to plot</p>")
  | _ =>
      let plot_data :=
        {| pindex := map index plot_rows;
           pcolumns := [(x_col, map (fun r => PCell (cell (fst px) r)) plot_rows);
                        (y_col, map (fun r => PCell (cell (fst py) r)) plot_rows)] |} in
      sized <- size_mapping self data plot_rows size_col plot_data [] ;;
      let colored := color_mapping data plot_rows color_col (fst sized) (snd sized) in
      color_opts <-
        match truthy color_col with
        | Some cc =>
            pc <- getitem data cc ;;
            Ok (Some "color", Some (palette_selector self),
                is_numeric_dtype (snd pc),
                if is_numeric_dtype (snd pc) then None else Some "right")
        | None => Ok (None, None, false, None)
        end ;;
      let '(o_color, o_cmap, o_colorbar, o_legend) := color_opts in
      Ok (HoloViews
            {| pdata := fst colored;
               kdims := [x_col; y_col];
               vdims := snd colored;
               opts := {| width := 600; height := 400;
                          tools := ["hover"; "box_select"; "lasso_select"];
                          size := match truthy size_col with
                                  | Some _ => SizeDim "size"
                                  | None => SizeFixed 10
                                  end;
                          xlabel := x_col;
                          ylabel := y_col;
                          title := (y_col ++ " vs " ++ x_col)%string;
                          color := o_color;
                          cmap := o_cmap;
                          colorbar := o_colorbar;
                          legend := o_legend |} |})
  end.

Definition create_plot (data : DataFrame) (self : state) : pane * state :=
  if empty data then (HTML "<p>No data available</p>", self)
  else
    let self' := update_options data self in
    let size_col := value (size_selector self') in
    let color_col := value (color_selector self') in
    match truthy (value (x_selector self')), truthy (value (y_selector self')) with
    | Some x_col, Some y_col =>
        (match try_plot self' data x_col y_col size_col color_col with
         | Ok p => p
         | Raise e => ErrorHTML e
         end, self')
    | _, _ => (HTML "<p>Please select X and Y columns</p>", self')
    end.

End ScatterPlotManager.

(** ** Predicates of the specification *)

Definition is_str (v : scalar) : bool :=
  match v with VStr _ => true | _ => false end.

Section FilterSemantics.
Context `{PyRuntime}.
Import FilterManager.

(** What one registry entry asks of a row, read off the three branches of
    the loop: a range filter wants a number inside the closed range, a
    selection filter with a non-empty selection wants a member of it, a
    text filter with a non-empty pattern that compiles wants a hit of the
    case-insensitive search in the cell's string. *)
Definition passes (cols : list (string * dtype))
    (cf : string * filter_info) (r : Row) : bool :=
  match col_pos (fst cf) cols with
  | Some (i, _) =>
      match snd cf with
      | numeric (min_val, max_val) =>
          match cell i r, min_val, max_val with
          | VNum x, Some lo, Some hi => Qle_bool lo x && Qle_bool x hi
          | _, _, _ => false
          end
      | categorical selected_values =>
          if truthy_list selected_values then isin (cell i r) selected_values
          else true
      | text pattern =>
          if truthy_str pattern then
            match re_compile true pattern with
            | Some re => re_search re (astype_str (cell i r))
            | None => true
            end
          else true
      end
  | None => true
  end.

Definition passes_all (cols : list (string * dtype))
    (fs : list (string * filter_info)) (r : Row) : bool :=
  forallb (fun cf => passes cols cf r) fs.

(** An entry fits a frame when its column is there and, for a range
    filter, the column holds no string: this is what [_create_filter_widget]
    delivers. *)
Definition filter_ok (df : DataFrame) (cf : string * filter_info) : bool :=
  match col_pos (fst cf) (columns df) with
  | Some (i, _) =>
      match snd cf with
      | numeric _ => forallb (fun r => negb (is_str (cell i r))) (rows df)
      | _ => true
      end
  | None => false
  end.

(** What [filter_ok] gives for the rows of a sub-frame. *)
Definition fits (cols : list (string * dtype)) (rs : list Row)
    (cf : string * filter_info) : Prop :=
  exists i t, col_pos (fst cf) cols = Some (i, t)
    /\ match snd cf with
       | numeric _ => Forall (fun r => is_str (cell i r) = false) rs
       | _ => True
       end.

Definition wf (self : state) : Prop :=
  forallb (filter_ok (original_data self)) (active_filters self) = true.

(** The invariant of the manager: entries fit the frame, keys are unique,
    and [filtered_data] is what the registry computes. *)
Definition Inv (self : state) : Prop :=
  wf self
  /\ NoDup (map fst (active_filters self))
  /\ recompute self = Ok (filtered_data self).

(** Running a list of events, exceptions being reported and dropped as the
    toolkit does with an exception in a callback. *)
Definition run (es : list event) (self : state) : state :=
  fold_left (fun s e => snd (handle e s)) es self.

End FilterSemantics.

(** ** Sample frames and registries *)

Module Samples.
Import FilterManager.

Definition shop : DataFrame :=
  {| columns := [("price", Number); ("region", Object); ("name", Object)];
     rows := [ {| index := 0; cells := [VNum 12; VStr "North"; VStr "anvil"] |};
               {| index := 1; cells := [VNum 30.5; VStr "South"; VStr "Banana"] |};
               {| index := 2; cells := [VNaN; VStr "North"; VNaN] |};
               {| index := 3; cells := [VNum 7; VStr "East"; VStr "nantes"] |};
               {| index := 4; cells := [VNum 25; VStr "West"; VStr "Bolt"] |} ] |}.

Definition registry (fs : list (string * filter_info)) : state :=
  {| original_data := shop; filtered_data := shop;
     active_filters := fs; column_selector := Some "price" |}.

Definition by_price : string * filter_info := ("price", numeric (Some 10, Some 40)%Q).
Definition by_region : string * filter_info :=
  ("region", categorical [VStr "North"; VStr "South"]).
Definition by_name : string * filter_info := ("name", text "an").
Definition no_region : string * filter_info := ("region", categorical []).

End Samples.

(** The registry after the user has added a filter on [price] and narrowed
    its range, and after a selection filter on [region] was added next. *)
Definition narrowed_price : FilterManager.state :=
  run (H := mini_runtime)
    [FilterManager.AddFilter;
     FilterManager.UpdateFilter "price" (FilterManager.numeric (Some 10, Some 40)%Q)]
    (FilterManager.__init__ Samples.shop).

Definition region_selected : FilterManager.state :=
  run (H := mini_runtime) [FilterManager.SelectColumn "region"] narrowed_price.

(** The scenario of the product filter: on the generated frame of 1000 rows
    the user selects [product_name], adds a filter and types the pattern. *)
Definition product_scenario (draw : nat -> DataGenerator.Draw) : FilterManager.state :=
  run (H := mini_runtime)
    [FilterManager.SelectColumn "product_name";
     FilterManager.AddFilter;
     FilterManager.UpdateFilter "product_name" (FilterManager.text "Product_00[0-9]")]
    (FilterManager.__init__ (DataGenerator.generate_example_data draw 1000)).

(** A frame whose text column has ten distinct labels and one missing
    value, and the registry after the user has added a filter on it and
    typed the pattern [nan]. *)
Definition catalog : DataFrame :=
  {| columns := [("label", Object); ("stock", Number)];
     rows := map (fun i => {| index := i;
                              cells := [VStr ("Gadget_" ++ DataGenerator.str_int i);
                                        VNum (inject_Z (Z.of_nat i))] |})
                 (seq 0 10)
             ++ [ {| index := 10; cells := [VNaN; VNum 3] |} ] |}.

Definition catalog_scenario : FilterManager.state :=
  run (H := mini_runtime)
    [FilterManager.AddFilter;
     FilterManager.UpdateFilter "label" (FilterManager.text "nan")]
    (FilterManager.__init__ catalog).

(** ** Sample views and settings for the scatter plot *)

Module PlotSamples.
Import ScatterPlotManager.

Definition view_of (rs : list (list scalar)) : DataFrame :=
  {| columns := [("price", Number); ("rating", Number);
                 ("quantity", Number); ("region", Object)];
     rows := map (fun ir => {| index := fst ir; cells := snd ir |})
                 (enumerate 0 rs) |}.

(** Every plotted row has the same quantity. *)
Definition constant_quantity : DataFrame :=
  view_of [ [VNum 10; VNum 4; VNum 7; VStr "North"];
            [VNum 25; VNum 3.5; VNum 7; VStr "South"];
            [VNum 18; VNum 5; VNum 7; VStr "East"] ].


Definition varied : DataFrame :=
  view_of [ [VNum 10; VNum 4; VNum 5; VStr "North"];
            [VNum 12; VNum 3; VNum 9; VStr "South"];
            [VNum 20; VNum 5; VNum 6; VStr "East"] ].


(** The settings after the first refresh on a view and the choice of
    [quantity] for the size. *)
Definition sized_by_quantity (view : DataFrame) : state :=
  user_select SelSize (Some "quantity") (update_options view __init__).


End PlotSamples.

(** [frame[name]] on the columns of a plotted frame. *)
Fixpoint lookup_column (name : string)
    (cs : list (string * list ScatterPlotManager.pvalue))
    : option (list ScatterPlotManager.pvalue) :=
  match cs with
  | [] => None
  | (k, c) :: cs' => if String.eqb name k then Some c else lookup_column name cs'
  end.

(** The two axis selectors with the attribute that records their default,
    and the place of their default among the eligible columns. *)
Inductive axis : Type := AxisX | AxisY.




Definition axis_widget (a : axis) : ScatterPlotManager.selector :=
  match a with
  | AxisX => ScatterPlotManager.SelX
  | AxisY => ScatterPlotManager.SelY
  end.

(** The manager on the sample frame after the user has pointed the
    selector at [name], a column with four labels and a missing value. *)
Definition name_selected : FilterManager.state :=
  run (H := mini_runtime) [FilterManager.SelectColumn "name"]
    (FilterManager.__init__ Samples.shop).


(** [int(s)] on a string of decimal digits. *)
Definition parse_digits (s : string) : option nat :=
  option_map Nat.of_uint (NilEmpty.uint_of_string s).

(** * Facts *)

(** ** Lists and masks *)

Lemma select_map {A : Type} (p : A -> bool) (l : list A) :
  select l (map p l) = filter p l.
Proof.
  induction l as [|a l IH]; simpl; [reflexivity|].
  destruct (p a); rewrite IH; reflexivity.
Qed.

Lemma mapM_pure {A B : Type} (f : A -> result B) (g : A -> B) (l : list A) :
  Forall (fun a => f a = Ok (g a)) l -> mapM f l = Ok (map g l).
Proof.
  induction 1 as [|a l Ha _ IH]; simpl; [reflexivity|].
  rewrite Ha, IH. reflexivity.
Qed.

Lemma filter_filter {A : Type} (p q : A -> bool) (l : list A) :
  filter q (filter p l) = filter (fun a => p a && q a) l.
Proof.
  induction l as [|a l IH]; simpl; [reflexivity|].
  destruct (p a); simpl; [destruct (q a)|]; rewrite IH; reflexivity.
Qed.

Lemma filter_true {A : Type} (l : list A) : filter (fun _ => true) l = l.
Proof. induction l as [|a l IH]; simpl; [|rewrite IH]; reflexivity. Qed.

Lemma Forall_filter {A : Type} (P : A -> Prop) (p : A -> bool) (l : list A) :
  Forall P l -> Forall P (filter p l).
Proof.
  induction 1 as [|a l Ha _ IH]; simpl; [constructor|].
  destruct (p a); [constructor|]; assumption.
Qed.


(** ** The loop of [_apply_filters] *)

Section FilterFacts.
Context `{PyRuntime}.
Import FilterManager.

Lemma fits_filter cols rs cf (p : Row -> bool) :
  fits cols rs cf -> fits cols (filter p rs) cf.
Proof.
  intros (i & t & Hc & Hk). exists i, t. split; [assumption|].
  destruct (snd cf); try exact I. apply Forall_filter. assumption.
Qed.

Lemma filter_ok_fits df cf :
  filter_ok df cf = true -> fits (columns df) (rows df) cf.
Proof.
  unfold filter_ok, fits. destruct (col_pos (fst cf) (columns df)) as [[i t]|]; [|discriminate].
  intros Hk. exists i, t. split; [reflexivity|].
  destruct (snd cf); try exact I.
  rewrite forallb_forall in Hk. apply Forall_forall. intros r Hr.
  specialize (Hk r Hr). destruct (is_str (cell i r)); [discriminate|reflexivity].
Qed.

Lemma apply_filter_passes cols rs c info :
  fits cols rs (c, info) ->
  apply_filter c info {| columns := cols; rows := rs |}
  = Ok {| columns := cols; rows := filter (passes cols (c, info)) rs |}.
Proof.
  intros (i & t & Hc & Hk). simpl in Hc, Hk.
  unfold apply_filter, passes, getitem, with_rows; simpl. rewrite Hc.
  destruct info as [[min_val max_val] | selected_values | pattern]; simpl.
  - rewrite (mapM_pure _ (fun r => match cell i r, min_val, max_val with
                                   | VNum x, Some lo, Some hi =>
                                       Qle_bool lo x && Qle_bool x hi
                                   | _, _, _ => false
                                   end)).
    + simpl. rewrite select_map. reflexivity.
    + eapply Forall_impl; [|exact Hk]. intros r Hr. simpl in Hr.
      destruct (cell i r) as [x| |]; simpl in *; try discriminate; try reflexivity.
      destruct min_val, max_val; simpl; try reflexivity.
      destruct (Qle_bool q x); reflexivity.
  - destruct (truthy_list selected_values).
    + rewrite select_map. reflexivity.
    + rewrite filter_true. reflexivity.
  - destruct (truthy_str pattern).
    + unfold str_contains. simpl.
      destruct (re_compile true pattern) as [re|]; simpl.
      * rewrite map_map, select_map. reflexivity.
      * rewrite filter_true. reflexivity.
    + rewrite filter_true. reflexivity.
Qed.

Lemma for_filters_passes cols fs : forall rs,
  Forall (fits cols rs) fs ->
  for_filters fs {| columns := cols; rows := rs |}
  = Ok {| columns := cols; rows := filter (passes_all cols fs) rs |}.
Proof.
  induction fs as [|[c info] fs IH]; intros rs Hfs; simpl.
  - unfold passes_all; simpl. rewrite filter_true. reflexivity.
  - inversion Hfs as [|? ? Hcf Hrest]; subst.
    rewrite (apply_filter_passes Hcf). simpl.
    rewrite IH.
    + rewrite filter_filter. reflexivity.
    + eapply Forall_impl; [|exact Hrest]. intros cf. apply fits_filter.
Qed.

Lemma recompute_passes self :
  wf self ->
  recompute self
  = Ok (with_rows (original_data self)
          (filter (passes_all (columns (original_data self)) (active_filters self))
                  (rows (original_data self)))).
Proof.
  unfold wf, recompute, with_rows. intros Hwf.
  destruct (original_data self) as [cols rs] eqn:E. simpl.
  apply for_filters_passes.
  rewrite forallb_forall in Hwf. apply Forall_forall. intros cf Hcf.
  apply (filter_ok_fits {| columns := cols; rows := rs |}). apply Hwf. exact Hcf.
Qed.

End FilterFacts.

(** ** The filtered view *)

Section FilteredView.
Context `{PyRuntime}.
Import FilterManager.

Lemma apply_filters_passes self :
  wf self ->
  _apply_filters self
  = (Ok tt,
     set_filtered_data self
       (with_rows (original_data self)
          (filter (passes_all (columns (original_data self)) (active_filters self))
                  (rows (original_data self))))).
Proof.
  intros Hwf. unfold _apply_filters.
  pose proof (recompute_passes Hwf) as E. unfold recompute in E.
  rewrite E. reflexivity.
Qed.


Lemma wf_app_remove self fs1 cf fs2 :
  active_filters self = fs1 ++ cf :: fs2 -> wf self ->
  wf (set_active_filters self (fs1 ++ fs2)).
Proof.
  unfold wf; simpl. intros E. rewrite E, !forallb_app. simpl.
  intros Hwf. apply andb_true_iff in Hwf as [H1 H2].
  apply andb_true_iff in H2 as [_ H2]. rewrite H1, H2. reflexivity.
Qed.

Lemma passes_all_skip cols fs1 cf fs2 :
  (forall r, passes cols cf r = true) ->
  forall r, passes_all cols (fs1 ++ cf :: fs2) r = passes_all cols (fs1 ++ fs2) r.
Proof.
  intros Hcf r. unfold passes_all. rewrite !forallb_app. simpl.
  rewrite Hcf. reflexivity.
Qed.

(** An entry that lets every row through can be taken out of the
    registry. *)
Lemma apply_filters_skip self fs1 cf fs2 :
  active_filters self = fs1 ++ cf :: fs2 -> wf self ->
  (forall r, passes (columns (original_data self)) cf r = true) ->
  exists d,
    _apply_filters self = (Ok tt, set_filtered_data self d)
    /\ recompute (set_active_filters self (fs1 ++ fs2)) = Ok d.
Proof.
  intros E Hwf Hcf.
  eexists. split; [apply (apply_filters_passes Hwf)|].
  rewrite (recompute_passes (wf_app_remove _ _ _ E Hwf)). simpl.
  rewrite E. do 2 f_equal. apply filter_ext. intros r. symmetry.
  apply passes_all_skip. exact Hcf.
Qed.

End FilteredView.

(** C1. Whatever the frame and the registry, the view that [_apply_filters]
    leaves in [filtered_data] has the frame's columns and only rows of the
    frame, in their order; with no active filter it is the frame itself. *)
Theorem apply_filters_subset `{PyRuntime} (self : FilterManager.state) :
  wf self ->
  exists d,
    FilterManager._apply_filters self = (Ok tt, FilterManager.set_filtered_data self d)
    /\ columns d = columns (FilterManager.original_data self)
    /\ (exists keep, rows d = filter keep (rows (FilterManager.original_data self)))
    /\ incl (rows d) (rows (FilterManager.original_data self))
    /\ (FilterManager.active_filters self = [] -> d = FilterManager.original_data self).
Proof.
  intros Hwf. eexists. split; [apply (apply_filters_passes Hwf)|].
  simpl. repeat split.
  - eexists. reflexivity.
  - intros r Hr. apply filter_In in Hr. tauto.
  - intros E. rewrite E. unfold passes_all, with_rows. simpl.
    rewrite filter_true. destruct (FilterManager.original_data self). reflexivity.
Qed.

Lemma apply_filters_subset_witness :
  wf (Samples.registry [Samples.by_price; Samples.by_region; Samples.by_name])
  /\ exists d,
       FilterManager._apply_filters
         (Samples.registry [Samples.by_price; Samples.by_region; Samples.by_name])
       = (Ok tt,
          FilterManager.set_filtered_data
            (Samples.registry [Samples.by_price; Samples.by_region; Samples.by_name]) d)
       /\ columns d = columns Samples.shop
       /\ (exists keep, rows d = filter keep (rows Samples.shop))
       /\ incl (rows d) (rows Samples.shop)
       /\ ([Samples.by_price; Samples.by_region; Samples.by_name] = [] -> d = Samples.shop).
Proof.
  split; [reflexivity|].
  apply (@apply_filters_subset mini_runtime
           (Samples.registry [Samples.by_price; Samples.by_region; Samples.by_name])).
  reflexivity.
Defined.





(** C9. A selection filter whose selection is empty is skipped: every row
    passes it, although no cell is a member of the empty list, and the view
    is the one the other entries of the registry compute. *)
Theorem empty_selection_is_skipped `{PyRuntime} (self : FilterManager.state)
    (fs1 fs2 : list (string * FilterManager.filter_info)) (c : string) :
  FilterManager.active_filters self = fs1 ++ (c, FilterManager.categorical []) :: fs2 ->
  wf self ->
  (forall v, isin v [] = false)
  /\ (forall d, FilterManager.apply_filter c (FilterManager.categorical []) d = Ok d)
  /\ exists d,
       FilterManager._apply_filters self
       = (Ok tt, FilterManager.set_filtered_data self d)
       /\ FilterManager.recompute (FilterManager.set_active_filters self (fs1 ++ fs2))
          = Ok d.
Proof.
  intros E Hwf. split; [reflexivity|]. split; [reflexivity|].
  apply (apply_filters_skip _ _ _ E Hwf). intros r. unfold passes. simpl.
  destruct (col_pos c (columns (FilterManager.original_data self))) as [[i t]|];
    reflexivity.
Qed.

Lemma empty_selection_is_skipped_witness :
  wf (Samples.registry [Samples.no_region; Samples.by_price; Samples.by_name])
  /\ exists d,
       @FilterManager._apply_filters mini_runtime
         (Samples.registry [Samples.no_region; Samples.by_price; Samples.by_name])
       = (Ok tt,
          FilterManager.set_filtered_data
            (Samples.registry [Samples.no_region; Samples.by_price; Samples.by_name]) d)
       /\ @FilterManager.recompute mini_runtime
            (Samples.registry [Samples.by_price; Samples.by_name])
          = Ok d.
Proof.
  split; [reflexivity|].
  apply (@empty_selection_is_skipped mini_runtime
           (Samples.registry [Samples.no_region; Samples.by_price; Samples.by_name])
           [] [Samples.by_price; Samples.by_name] "region");
    reflexivity.
Defined.

(** ** The invariant of the manager *)

Section ManagerInvariant.
Context `{PyRuntime}.
Import FilterManager.

Lemma series_fold_no_str pick l m :
  series_fold pick l = Ok m -> Forall (fun v => is_str v = false) l.
Proof.
  revert m. induction l as [|v l IH]; intros m; simpl; [constructor|].
  destruct v as [x|s|]; simpl.
  - destruct (series_fold pick l) as [m'|e] eqn:E; simpl; [|discriminate].
    intros _. constructor; [reflexivity|]. eapply IH. reflexivity.
  - discriminate.
  - intros E. constructor; [reflexivity|]. eapply IH. exact E.
Qed.

Lemma create_filter_widget_ok self c w :
  _create_filter_widget self c = Ok w ->
  filter_ok (original_data self) (c, w) = true.
Proof.
  unfold _create_filter_widget, getitem, filter_ok. simpl.
  destruct (col_pos c (columns (original_data self))) as [[i t]|]; simpl;
    [|discriminate].
  destruct (is_numeric_dtype t).
  - unfold _create_numeric_filter, series_min.
    destruct (series_fold qmin _) as [mn|e] eqn:Emin; simpl; [|discriminate].
    destruct (series_max _) as [mx|e]; simpl; [|discriminate].
    intros E. injection E as <-.
    apply series_fold_no_str in Emin. unfold column_values in Emin.
    rewrite Forall_map in Emin. apply forallb_forall. intros r Hr.
    rewrite Forall_forall in Emin. rewrite (Emin r Hr). reflexivity.
  - destruct (nunique _ <? 10).
    + unfold _create_categorical_filter.
      destruct (py_sorted _); simpl; [|discriminate].
      intros E. injection E as <-. reflexivity.
    + unfold _create_text_filter. intros E. injection E as <-. reflexivity.
Qed.

Lemma dict_mem_In {V : Type} c (d : list (string * V)) :
  dict_mem c d = true <-> In c (map fst d).
Proof.
  unfold dict_mem. rewrite existsb_exists, in_map_iff. split.
  - intros (kv & Hin & E). apply String.eqb_eq in E. exists kv. split; auto.
  - intros (kv & E & Hin). exists kv. split; [assumption|].
    apply String.eqb_eq. auto.
Qed.

Lemma dict_set_fresh {V : Type} c (v : V) d :
  dict_mem c d = false -> dict_set c v d = d ++ [(c, v)].
Proof.
  induction d as [|[k w] d IH]; simpl; [reflexivity|].
  destruct (String.eqb c k); simpl; [discriminate|].
  intros E. rewrite (IH E). reflexivity.
Qed.

Lemma dict_del_fresh {V : Type} c (d : list (string * V)) :
  dict_mem c d = false -> dict_del c d = d.
Proof.
  induction d as [|[k w] d IH]; simpl; [reflexivity|].
  destruct (String.eqb c k); simpl; [discriminate|].
  intros E. rewrite (IH E). reflexivity.
Qed.

Lemma dict_del_added {V : Type} c (v : V) d :
  dict_mem c d = false -> dict_del c (d ++ [(c, v)]) = d.
Proof.
  intros E. unfold dict_del. rewrite filter_app. simpl.
  rewrite String.eqb_refl. simpl. rewrite app_nil_r.
  apply (dict_del_fresh _ _ E).
Qed.

Lemma dict_del_keys {V : Type} c (d : list (string * V)) :
  map fst (dict_del c d) = filter (fun k => negb (String.eqb c k)) (map fst d).
Proof.
  induction d as [|[k w] d IH]; simpl; [reflexivity|].
  destruct (String.eqb c k); simpl; rewrite IH; reflexivity.
Qed.

Lemma same_kind_filter_ok df k w v :
  same_kind w v = true -> filter_ok df (k, v) = filter_ok df (k, w).
Proof.
  unfold filter_ok. simpl. destruct (col_pos k (columns df)) as [[i t]|]; [|reflexivity].
  destruct w, v; simpl; try discriminate; reflexivity.
Qed.

Lemma widget_assign_keeps df c v : forall d d',
  widget_assign c v d = Some d' ->
  map fst d' = map fst d
  /\ forallb (filter_ok df) d' = forallb (filter_ok df) d.
Proof.
  induction d as [|[k w] d IH]; intros d'; simpl; [discriminate|].
  destruct (String.eqb c k).
  - destruct (same_kind w v) eqn:K; [|discriminate].
    intros E. injection E as <-. simpl. split; [reflexivity|].
    rewrite (same_kind_filter_ok df k _ _ K). reflexivity.
  - destruct (widget_assign c v d) as [r|]; [|discriminate].
    intros E. injection E as <-. simpl.
    destruct (IH r eq_refl) as [-> ->]. split; reflexivity.
Qed.

(** [_apply_filters] on a registry that fits its frame: it returns, keeps
    the registry and establishes the invariant. *)
Lemma apply_filters_Inv self :
  wf self -> NoDup (map fst (active_filters self)) ->
  fst (_apply_filters self) = Ok tt
  /\ Inv (snd (_apply_filters self))
  /\ original_data (snd (_apply_filters self)) = original_data self
  /\ active_filters (snd (_apply_filters self)) = active_filters self.
Proof.
  intros Hwf Hnd. rewrite (apply_filters_passes Hwf). simpl.
  repeat split; try assumption.
  unfold recompute. simpl. apply (recompute_passes Hwf).
Qed.

Lemma handle_Inv e self :
  Inv self ->
  Inv (snd (handle e self))
  /\ original_data (snd (handle e self)) = original_data self.
Proof.
  intros (Hwf & Hnd & Hsync). destruct e as [c| |c|c v]; simpl.
  - unfold select_column. destruct (in_columns c (original_data self)); simpl;
      (split; [repeat split; assumption|reflexivity]).
  - unfold _add_filter. destruct (column_selector self) as [c|];
      [|split; [repeat split; assumption|reflexivity]].
    destruct (truthy_str c); simpl;
      [|split; [repeat split; assumption|reflexivity]].
    destruct (dict_mem c (active_filters self)) eqn:Hmem; simpl;
      [split; [repeat split; assumption|reflexivity]|].
    destruct (_create_filter_widget self c) as [w|ex] eqn:Hw; simpl;
      [|split; [repeat split; assumption|reflexivity]].
    rewrite (dict_set_fresh _ _ _ Hmem).
    destruct (apply_filters_Inv
                (self := set_active_filters self (active_filters self ++ [(c, w)])))
      as (_ & HI & Ho & _).
    + unfold wf. simpl. rewrite forallb_app. simpl.
      unfold wf in Hwf. rewrite Hwf. simpl.
      rewrite (create_filter_widget_ok _ _ Hw). reflexivity.
    + simpl. rewrite map_app. simpl.
      apply NoDup_app; [assumption| repeat constructor; simpl; tauto |].
      intros k Hk [<-|[]]. apply dict_mem_In in Hk. congruence.
    + split; assumption.
  - unfold _remove_filter. destruct (dict_mem c (active_filters self));
      [|split; [repeat split; assumption|reflexivity]].
    destruct (apply_filters_Inv
                (self := set_active_filters self (dict_del c (active_filters self))))
      as (_ & HI & Ho & _).
    + unfold wf in *. simpl. unfold dict_del.
      apply forallb_forall. intros cf Hcf. apply filter_In in Hcf as [Hcf _].
      rewrite forallb_forall in Hwf. apply Hwf. exact Hcf.
    + simpl. rewrite dict_del_keys. apply NoDup_filter. assumption.
    + split; assumption.
  - unfold update_filter.
    destruct (widget_assign c v (active_filters self)) as [fs|] eqn:Ha;
      [|split; [repeat split; assumption|reflexivity]].
    destruct (widget_assign_keeps (original_data self) _ _ _ Ha) as [Hk Hf].
    destruct (apply_filters_Inv (self := set_active_filters self fs))
      as (_ & HI & Ho & _).
    + unfold wf in *. simpl. rewrite Hf. exact Hwf.
    + simpl. rewrite Hk. exact Hnd.
    + split; assumption.
Qed.

Lemma reachable_Inv data self :
  reachable data self -> Inv self /\ original_data self = data.
Proof.
  induction 1 as [|self e _ [HI Ho]].
  - split; [|reflexivity].
    split; [reflexivity|]. split; [constructor|reflexivity].
  - destruct (handle_Inv e HI) as [HI' Ho']. split; [assumption|congruence].
Qed.

Lemma run_reachable data es : forall self,
  reachable data self -> reachable data (run es self).
Proof.
  induction es as [|e es IH]; intros self Hr; simpl; [assumption|].
  apply IH. constructor. assumption.
Qed.

End ManagerInvariant.

(** ** Adding and removing a filter *)

Lemma remove_added `{PyRuntime} (self s : FilterManager.state) (c : string)
    (w : FilterManager.filter_info) :
  FilterManager.recompute self = Ok (FilterManager.filtered_data self) ->
  FilterManager.dict_mem c (FilterManager.active_filters self) = false ->
  FilterManager.original_data s = FilterManager.original_data self ->
  FilterManager.active_filters s = FilterManager.active_filters self ++ [(c, w)] ->
  FilterManager.filtered_data (snd (FilterManager._remove_filter c s))
  = FilterManager.filtered_data self
  /\ FilterManager.active_filters (snd (FilterManager._remove_filter c s))
     = FilterManager.active_filters self.
Proof.
  intros Hsync Hmem Ho Ha.
  unfold FilterManager._remove_filter, FilterManager._apply_filters. simpl.
  rewrite Ha, Ho, (dict_del_added _ _ _ Hmem).
  unfold FilterManager.dict_mem. rewrite existsb_app. simpl.
  rewrite String.eqb_refl, orb_true_r.
  unfold FilterManager.recompute in Hsync. rewrite Hsync. simpl.
  split; reflexivity.
Qed.

Lemma add_remove_restores `{PyRuntime} (self : FilterManager.state) (c : string) :
  FilterManager.recompute self = Ok (FilterManager.filtered_data self) ->
  FilterManager.column_selector self = Some c ->
  FilterManager.dict_mem c (FilterManager.active_filters self) = false ->
  FilterManager.filtered_data
    (snd (FilterManager._remove_filter c (snd (FilterManager._add_filter self))))
  = FilterManager.filtered_data self
  /\ FilterManager.active_filters
       (snd (FilterManager._remove_filter c (snd (FilterManager._add_filter self))))
     = FilterManager.active_filters self.
Proof.
  intros Hsync Hsel Hmem.
  assert (Hnoop : FilterManager._remove_filter c self = (Ok tt, self)).
  { unfold FilterManager._remove_filter. rewrite Hmem. reflexivity. }
  unfold FilterManager._add_filter. rewrite Hsel, Hmem.
  destruct (truthy_str c); simpl; [|rewrite Hnoop; split; reflexivity].
  destruct (FilterManager._create_filter_widget self c) as [w|ex]; simpl;
    [|rewrite Hnoop; split; reflexivity].
  rewrite (dict_set_fresh _ _ _ Hmem).
  eapply remove_added; [exact Hsync | exact Hmem | |];
    unfold FilterManager._apply_filters; simpl;
    destruct (FilterManager.for_filters _ _); reflexivity.
Qed.

(** C7, as the code has it. In every state the manager can reach, for a
    column that has no active filter: adding a filter on it and removing it
    again leaves the view, and the registry, as they were before. *)
Theorem add_then_remove_restores_view `{PyRuntime}
    (data : DataFrame) (self : FilterManager.state) (c : string) :
  FilterManager.reachable data self ->
  FilterManager.column_selector self = Some c ->
  FilterManager.dict_mem c (FilterManager.active_filters self) = false ->
  FilterManager.filtered_data
    (snd (FilterManager._remove_filter c (snd (FilterManager._add_filter self))))
  = FilterManager.filtered_data self
  /\ FilterManager.active_filters
       (snd (FilterManager._remove_filter c (snd (FilterManager._add_filter self))))
     = FilterManager.active_filters self.
Proof.
  intros Hr. destruct (reachable_Inv Hr) as [(_ & _ & Hsync) _].
  apply add_remove_restores. exact Hsync.
Qed.

Lemma region_selected_reachable :
  FilterManager.reachable (H := mini_runtime) Samples.shop region_selected.
Proof.
  unfold region_selected, narrowed_price.
  do 2 apply run_reachable. constructor.
Qed.

Lemma add_then_remove_restores_view_witness :
  FilterManager.reachable (H := mini_runtime) Samples.shop region_selected
  /\ FilterManager.column_selector region_selected = Some "region"
  /\ FilterManager.dict_mem "region" (FilterManager.active_filters region_selected) = false
  /\ FilterManager.filtered_data
       (snd (FilterManager._remove_filter (H := mini_runtime) "region"
               (snd (FilterManager._add_filter (H := mini_runtime) region_selected))))
     = FilterManager.filtered_data region_selected
  /\ FilterManager.active_filters
       (snd (FilterManager._remove_filter (H := mini_runtime) "region"
               (snd (FilterManager._add_filter (H := mini_runtime) region_selected))))
     = FilterManager.active_filters region_selected.
Proof.
  split; [exact region_selected_reachable|].
  split; [reflexivity|]. split; [reflexivity|].
  apply (@add_then_remove_restores_view mini_runtime Samples.shop region_selected "region").
  - exact region_selected_reachable.
  - reflexivity.
  - reflexivity.
Defined.

(** C7 as stated fails on a column that already has a filter: there
    [_add_filter] does nothing and [_remove_filter] takes the existing
    filter away, so the view grows from the rows 0, 1, 4 to the whole
    frame. *)
Lemma add_then_remove_on_filtered_column :
  FilterManager.column_selector narrowed_price = Some "price"
  /\ map index (rows (FilterManager.filtered_data narrowed_price)) = [0; 1; 4]
  /\ map index
       (rows (FilterManager.filtered_data
                (snd (FilterManager._remove_filter (H := mini_runtime) "price"
                        (snd (FilterManager._add_filter (H := mini_runtime)
                                narrowed_price))))))
     = [0; 1; 2; 3; 4]
  /\ FilterManager.filtered_data
       (snd (FilterManager._remove_filter (H := mini_runtime) "price"
               (snd (FilterManager._add_filter (H := mini_runtime) narrowed_price))))
     <> FilterManager.filtered_data narrowed_price.
Proof.
  split; [reflexivity|]. split; [reflexivity|]. split; [reflexivity|].
  intros E. apply (f_equal (fun d => List.length (rows d))) in E.
  vm_compute in E. discriminate.
Qed.

(** ** The product-name scenario *)

Lemma product_scenario_view (draw : nat -> DataGenerator.Draw) :
  FilterManager.active_filters (product_scenario draw)
  = [("product_name", FilterManager.text "Product_00[0-9]")]
  /\ map index (rows (FilterManager.filtered_data (product_scenario draw))) = seq 0 100.
Proof. split; vm_compute; reflexivity. Qed.

(** C5, as the code has it. On the generated frame of 1000 rows, whatever
    the random cells are, the filter added on [product_name] is a text
    filter, and with the pattern [Product_00[0-9]] the view is made of
    exactly 100 rows, those of index 0 to 99: the names are padded to four
    digits, so the pattern is found in every name from [Product_0000] to
    [Product_0099]. *)
Theorem product_pattern_keeps_first_hundred (draw : nat -> DataGenerator.Draw) :
  FilterManager.active_filters (product_scenario draw)
  = [("product_name", FilterManager.text "Product_00[0-9]")]
  /\ map index (rows (FilterManager.filtered_data (product_scenario draw))) = seq 0 100
  /\ List.length (rows (FilterManager.filtered_data (product_scenario draw))) = 100.
Proof.
  destruct (product_scenario_view draw) as [Ha Hv].
  split; [exact Ha|]. split; [exact Hv|].
  rewrite <- (length_map index), Hv. apply length_seq.
Qed.

(** C5 as stated fails: no outcome of the random draws leaves ten rows, or
    the rows of index 0 to 9, in the view. *)
Lemma product_pattern_ten_rows_fails :
  ~ exists draw : nat -> DataGenerator.Draw,
      List.length (rows (FilterManager.filtered_data (product_scenario draw))) = 10
      \/ map index (rows (FilterManager.filtered_data (product_scenario draw))) = seq 0 10.
Proof.
  intros [draw Hd]. destruct (product_scenario_view draw) as [_ Hv].
  destruct Hd as [Hd|Hd].
  - rewrite <- (length_map index), Hv, length_seq in Hd. clear Hv. discriminate Hd.
  - rewrite Hv in Hd. apply (f_equal (@List.length nat)) in Hd.
    rewrite !length_seq in Hd. clear Hv. discriminate Hd.
Qed.

(** ** A text filter and a missing value *)

(** C10 at a failing input. The column [label] holds ten labels and one
    missing value; the filter added on it is a text filter; with the pattern
    [nan] the view is the row of the missing value: [astype(str)] has turned
    it into the string [nan] before the search, and [na=False] has nothing
    left to act on. *)
Theorem text_filter_keeps_missing_value :
  FilterManager.active_filters catalog_scenario = [("label", FilterManager.text "nan")]
  /\ FilterManager.filtered_data catalog_scenario
     = with_rows catalog [ {| index := 10; cells := [VNaN; VNum 3] |} ]
  /\ In {| index := 10; cells := [VNaN; VNum 3] |} (rows catalog).
Proof.
  split; [vm_compute; reflexivity|]. split; [vm_compute; reflexivity|].
  unfold catalog. cbn [rows]. apply in_or_app. right. left. reflexivity.
Qed.

(** For every runtime, on a column that the frame has, a text filter whose
    pattern compiles keeps the rows where the search finds the pattern in
    the string of the cell, and the string of a missing cell is [nan]. *)
Lemma text_filter_searches_string `{PyRuntime} (cols : list (string * dtype))
    (rs : list Row) (c pattern : string) (i : nat) (t : dtype) (re : regex) :
  col_pos c cols = Some (i, t) ->
  truthy_str pattern = true ->
  re_compile true pattern = Some re ->
  FilterManager.apply_filter c (FilterManager.text pattern)
    {| columns := cols; rows := rs |}
  = Ok {| columns := cols;
          rows := filter (fun r => re_search re (astype_str (cell i r))) rs |}
  /\ astype_str VNaN = "nan".
Proof.
  intros Hc Hp Hre. split; [|reflexivity].
  rewrite apply_filter_passes.
  - do 2 f_equal. apply filter_ext. intros r. unfold passes. simpl.
    rewrite Hc, Hp, Hre. reflexivity.
  - exists i, t. split; [exact Hc|exact I].
Qed.

(** ** The size mapping *)


Lemma qmin_cases (x y : Q) :
  (qmin x y = x /\ (x <= y)%Q) \/ (qmin x y = y /\ (y <= x)%Q).
Proof.
  unfold qmin. destruct (Qle_bool x y) eqn:E.
  - left. split; [reflexivity|]. apply Qle_bool_iff. exact E.
  - right. split; [reflexivity|].
    apply Qlt_le_weak, Qnot_le_lt. intros Hle. apply Qle_bool_iff in Hle. congruence.
Qed.

Lemma qmax_cases (x y : Q) :
  (qmax x y = x /\ (y <= x)%Q) \/ (qmax x y = y /\ (x <= y)%Q).
Proof.
  unfold qmax. destruct (Qle_bool x y) eqn:E.
  - right. split; [reflexivity|]. apply Qle_bool_iff. exact E.
  - left. split; [reflexivity|].
    apply Qlt_le_weak, Qnot_le_lt. intros Hle. apply Qle_bool_iff in Hle. congruence.
Qed.

(** [min()] of a column without strings: NaN when no number is there, else
    one of the numbers, below all the others. *)
Lemma series_min_spec (l : list scalar) :
  Forall (fun v => is_str v = false) l ->
  (series_min l = Ok None /\ forall x, ~ In (VNum x) l)
  \/ exists m, series_min l = Ok (Some m) /\ In (VNum m) l
               /\ forall x, In (VNum x) l -> (m <= x)%Q.
Proof.
  unfold series_min. induction 1 as [|v l Hv _ IH]; simpl.
  - left. split; [reflexivity|]. intros x [].
  - destruct v as [x|s|]; simpl in *; [|discriminate|].
    + right. destruct IH as [[-> Hno]|(m & -> & Hin & Hlow)]; simpl.
      * exists x. split; [reflexivity|]. split; [left; reflexivity|].
        intros y [E|Hy]; [injection E as <-; apply Qle_refl|].
        exfalso. exact (Hno y Hy).
      * exists (qmin x m). split; [reflexivity|].
        destruct (qmin_cases x m) as [[-> Hle]|[-> Hle]].
        -- split; [left; reflexivity|].
           intros y [E|Hy]; [injection E as <-; apply Qle_refl|].
           eapply Qle_trans; [exact Hle|]. apply Hlow. exact Hy.
        -- split; [right; exact Hin|].
           intros y [E|Hy]; [injection E as <-; exact Hle|]. apply Hlow. exact Hy.
    + destruct IH as [[-> Hno]|(m & -> & Hin & Hlow)].
      * left. split; [reflexivity|]. intros x [E|Hx]; [discriminate|]. exact (Hno x Hx).
      * right. exists m. split; [reflexivity|]. split; [right; exact Hin|].
        intros y [E|Hy]; [discriminate|]. apply Hlow. exact Hy.
Qed.

Lemma series_max_spec (l : list scalar) :
  Forall (fun v => is_str v = false) l ->
  (series_max l = Ok None /\ forall x, ~ In (VNum x) l)
  \/ exists m, series_max l = Ok (Some m) /\ In (VNum m) l
               /\ forall x, In (VNum x) l -> (x <= m)%Q.
Proof.
  unfold series_max. induction 1 as [|v l Hv _ IH]; simpl.
  - left. split; [reflexivity|]. intros x [].
  - destruct v as [x|s|]; simpl in *; [|discriminate|].
    + right. destruct IH as [[-> Hno]|(m & -> & Hin & Hup)]; simpl.
      * exists x. split; [reflexivity|]. split; [left; reflexivity|].
        intros y [E|Hy]; [injection E as <-; apply Qle_refl|].
        exfalso. exact (Hno y Hy).
      * exists (qmax x m). split; [reflexivity|].
        destruct (qmax_cases x m) as [[-> Hle]|[-> Hle]].
        -- split; [left; reflexivity|].
           intros y [E|Hy]; [injection E as <-; apply Qle_refl|].
           eapply Qle_trans; [|exact Hle]. apply Hup. exact Hy.
        -- split; [right; exact Hin|].
           intros y [E|Hy]; [injection E as <-; exact Hle|]. apply Hup. exact Hy.
    + destruct IH as [[-> Hno]|(m & -> & Hin & Hup)].
      * left. split; [reflexivity|]. intros x [E|Hx]; [discriminate|]. exact (Hno x Hx).
      * right. exists m. split; [reflexivity|]. split; [right; exact Hin|].
        intros y [E|Hy]; [discriminate|]. apply Hup. exact Hy.
Qed.



Lemma lookup_assign_same name col cs :
  lookup_column name (ScatterPlotManager.assign_column name col cs) = Some col.
Proof.
  induction cs as [|[k c] cs IH]; simpl.
  - rewrite String.eqb_refl. reflexivity.
  - destruct (String.eqb name k) eqn:E; simpl; rewrite E; [reflexivity|exact IH].
Qed.

Lemma lookup_assign_other name name' col cs :
  String.eqb name name' = false ->
  lookup_column name (ScatterPlotManager.assign_column name' col cs)
  = lookup_column name cs.
Proof.
  intros Hne. induction cs as [|[k c] cs IH]; simpl.
  - rewrite Hne. reflexivity.
  - destruct (String.eqb name' k) eqn:E; simpl.
    + apply String.eqb_eq in E. subst k. rewrite Hne. reflexivity.
    + rewrite IH. reflexivity.
Qed.



(** The size mapping on a numeric column whose plotted values are all the
    same number, or missing: nothing is added to the frame. *)
Lemma size_mapping_constant (self : ScatterPlotManager.state) (data : DataFrame)
    (plot_rows : list Row) (sc : string) (ps : nat)
    (f : ScatterPlotManager.PlotFrame) (value_dims : list string) (x : Q) :
  col_pos sc (columns data) = Some (ps, Number) ->
  Forall (fun v => match v with
                   | VNum y => (y == x)%Q
                   | VNaN => True
                   | VStr _ => False
                   end) (map (cell ps) plot_rows) ->
  ScatterPlotManager.size_mapping self data plot_rows (Some sc) f value_dims
  = Ok (f, value_dims).
Proof.
  intros Hc Hall.
  unfold ScatterPlotManager.size_mapping, ScatterPlotManager.truthy.
  destruct (truthy_str sc); [|reflexivity]. rewrite Hc. simpl.
  assert (Hl : Forall (fun v => is_str v = false) (map (cell ps) plot_rows)).
  { eapply Forall_impl; [|exact Hall]. intros [y|s|]; simpl; tauto. }
  assert (Heq : forall y, In (VNum y) (map (cell ps) plot_rows) -> (y == x)%Q).
  { intros y Hy. rewrite Forall_forall in Hall. exact (Hall _ Hy). }
  destruct (series_min_spec Hl) as [[-> _]|(mn & -> & Hmn & _)]; simpl.
  - destruct (series_max (map (cell ps) plot_rows)) as [[mx|]|e] eqn:Emax; simpl;
      try reflexivity.
    destruct (series_max_spec Hl) as [[E _]|(m & E & _)]; congruence.
  - destruct (series_max_spec Hl) as [[-> _]|(mx & -> & Hmx & _)]; simpl;
      [reflexivity|].
    destruct (Qle_bool mx mn) eqn:E; [reflexivity|].
    exfalso. assert (Hle : (mx <= mn)%Q).
    { rewrite (Heq _ Hmx), (Heq _ Hmn). apply Qle_refl. }
    apply Qle_bool_iff in Hle. congruence.
Qed.




(** ** A constant size column *)

(** C3 at a failing input. The three rows of the view have the quantity 7
    and [quantity] is the size column.  Nothing is divided and no size is
    computed, but the plot is not given the fixed size 10 either: its
    ['size'] option names the dimension [size], which the plotted frame
    does not have. *)
Theorem constant_size_column_names_missing_dimension :
  ScatterPlotManager.value
    (ScatterPlotManager.size_selector
       (PlotSamples.sized_by_quantity PlotSamples.constant_quantity))
  = Some "quantity"
  /\ column_values 2 PlotSamples.constant_quantity = [VNum 7; VNum 7; VNum 7]
  /\ exists p,
       fst (ScatterPlotManager.create_plot PlotSamples.constant_quantity
              (PlotSamples.sized_by_quantity PlotSamples.constant_quantity))
       = ScatterPlotManager.HoloViews p
       /\ ScatterPlotManager.pindex (ScatterPlotManager.pdata p) = [0; 1; 2]
       /\ map fst (ScatterPlotManager.pcolumns (ScatterPlotManager.pdata p))
          = ["price"; "rating"]
       /\ ScatterPlotManager.vdims p = []
       /\ ScatterPlotManager.size (ScatterPlotManager.opts p)
          = ScatterPlotManager.SizeDim "size"
       /\ ScatterPlotManager.size (ScatterPlotManager.opts p)
          <> ScatterPlotManager.SizeFixed 10.
Proof.
  split; [vm_compute; reflexivity|]. split; [vm_compute; reflexivity|].
  eexists. split; [vm_compute; reflexivity|].
  repeat split. discriminate.
Qed.

(** ** The selectors across refreshes *)



(** * Further facts on the filter manager *)

(** ** Recomputing, and what the handlers can raise *)

(** X1. [_apply_filters] is idempotent: a second call returns what the first
    returned and changes nothing more, whether the first call assigned a
    view or raised. *)
Theorem apply_filters_idempotent `{PyRuntime} (self : FilterManager.state) :
  FilterManager._apply_filters (snd (FilterManager._apply_filters self))
  = FilterManager._apply_filters self.
Proof.
  unfold FilterManager._apply_filters.
  destruct (FilterManager.for_filters (FilterManager.active_filters self)
              (FilterManager.original_data self)) as [d|e] eqn:E; simpl; rewrite E;
    reflexivity.
Qed.






Section Handlers.
Context `{PyRuntime}.
Import FilterManager.








End Handlers.




(** ** The registry and the view in the states the manager reaches *)




Lemma reachable_view `{PyRuntime} (data : DataFrame) (self : FilterManager.state) :
  FilterManager.reachable data self ->
  rows (FilterManager.filtered_data self)
  = filter (passes_all (columns data) (FilterManager.active_filters self)) (rows data).
Proof.
  intros Hr. destruct (reachable_Inv Hr) as [(Hwf & _ & Hsync) Ho].
  rewrite (recompute_passes Hwf) in Hsync. injection Hsync as <-. simpl.
  rewrite Ho. reflexivity.
Qed.







(** ** What a new filter starts with *)

Lemma value_eqb_refl v : value_eqb v v = true.
Proof.
  destruct v as [x|s|]; simpl; [|apply String.eqb_refl|reflexivity].
  apply Qeq_bool_iff. reflexivity.
Qed.

Lemma unique_acc_covers l : forall seen v,
  In v l -> isin v seen = true \/ isin v (unique_acc seen l) = true.
Proof.
  induction l as [|a l IH]; intros seen v Hin; [destruct Hin|]. simpl.
  destruct Hin as [<-|Hin].
  - destruct (isin a seen) eqn:E; [left; reflexivity|right].
    simpl. rewrite value_eqb_refl. reflexivity.
  - destruct (isin a seen) eqn:E; [apply IH, Hin|].
    destruct (IH (a :: seen) v Hin) as [Hs|Hu].
    + simpl in Hs. apply orb_true_iff in Hs as [Hs|Hs]; [right|left; exact Hs].
      simpl. rewrite Hs. reflexivity.
    + right. simpl. rewrite Hu. apply orb_true_r.
Qed.

Lemma isin_unique l v : In v l -> isin v (unique l) = true.
Proof.
  intros Hin. destruct (unique_acc_covers l [] v Hin) as [E|E]; [discriminate|exact E].
Qed.

Lemma insert_sorted_isin x l l' v :
  insert_sorted x l = Ok l' -> isin v l' = value_eqb v x || isin v l.
Proof.
  revert l'. induction l as [|y l IH]; intros l'; simpl.
  - intros E. injection E as <-. reflexivity.
  - destruct (py_lt x y) as [b|e]; simpl; [|discriminate].
    destruct b.
    + intros E. injection E as <-. reflexivity.
    + destruct (insert_sorted x l) as [r|e]; simpl; [|discriminate].
      intros E. injection E as <-. simpl. rewrite (IH r eq_refl).
      destruct (value_eqb v x), (value_eqb v y); reflexivity.
Qed.

Lemma fold_insert_isin l : forall a l' v,
  fold_left (fun acc x => a <- acc ;; insert_sorted x a) l (Ok a) = Ok l' ->
  isin v l' = isin v l || isin v a.
Proof.
  induction l as [|x l IH]; intros a l' v; simpl.
  - intros E. injection E as <-. reflexivity.
  - destruct (insert_sorted x a) as [a'|e] eqn:Ei.
    + intros E. rewrite (IH _ _ v E), (insert_sorted_isin _ _ v Ei).
      destruct (value_eqb v x), (isin v l), (isin v a); reflexivity.
    + intros E. exfalso. clear -E. induction l as [|y l IHl]; simpl in E;
        [discriminate|auto].
Qed.

(** [sorted] keeps the members of its list. *)
Lemma py_sorted_isin l l' v : py_sorted l = Ok l' -> isin v l' = isin v l.
Proof.
  unfold py_sorted. intros E. rewrite (fold_insert_isin _ _ v E). simpl.
  apply orb_false_r.
Qed.

Section NewFilter.
Context `{PyRuntime}.
Import FilterManager.

(** The view after an entry was appended to the registry of a reachable
    state. *)
Lemma view_after_append data self c w :
  reachable data self ->
  filter_ok data (c, w) = true ->
  _apply_filters (set_active_filters self (active_filters self ++ [(c, w)]))
  = (Ok tt,
     set_filtered_data (set_active_filters self (active_filters self ++ [(c, w)]))
       (with_rows data (filter (passes (columns data) (c, w))
                               (rows (filtered_data self))))).
Proof.
  intros Hr Hok. destruct (reachable_Inv Hr) as [(Hwf & _ & _) Ho].
  assert (Hwf' : wf (set_active_filters self (active_filters self ++ [(c, w)]))).
  { unfold wf in *. simpl. rewrite forallb_app, Hwf, Ho. simpl. rewrite Hok. reflexivity. }
  rewrite (apply_filters_passes Hwf'). simpl. rewrite Ho, (reachable_view Hr).
  rewrite filter_filter. do 3 f_equal. apply filter_ext. intros r.
  unfold passes_all. rewrite forallb_app. simpl. rewrite andb_true_r. reflexivity.
Qed.

Lemma add_filter_new data self c w :
  reachable data self ->
  column_selector self = Some c -> truthy_str c = true ->
  dict_mem c (active_filters self) = false ->
  _create_filter_widget self c = Ok w ->
  _add_filter self
  = (Ok tt,
     set_filtered_data (set_active_filters self (active_filters self ++ [(c, w)]))
       (with_rows data (filter (passes (columns data) (c, w))
                               (rows (filtered_data self))))).
Proof.
  intros Hr Hs Ht Hm Hw. destruct (reachable_Inv Hr) as [_ Ho].
  unfold _add_filter. rewrite Hs, Ht, Hm, Hw. simpl.
  rewrite (dict_set_fresh _ _ _ Hm). apply (view_after_append _ _ Hr).
  rewrite <- Ho. apply create_filter_widget_ok, Hw.
Qed.

Lemma view_frame data self :
  reachable data self ->
  filtered_data self = with_rows data (rows (filtered_data self)).
Proof.
  intros Hr.
  destruct (reachable_Inv Hr) as [(Hwf & _ & Hsync) Ho].
  rewrite (recompute_passes Hwf) in Hsync. injection Hsync as E.
  rewrite <- E at 1. rewrite Ho. unfold with_rows. simpl. rewrite <- E. simpl.
  rewrite Ho. reflexivity.
Qed.

End NewFilter.

Lemma value_eqb_kind a b : value_eqb a b = true -> is_str a = is_str b.
Proof. destruct a, b; simpl; intros E; try discriminate; reflexivity. Qed.

Lemma unique_has_kind l v :
  In v l -> exists w, In w (unique l) /\ is_str w = is_str v.
Proof.
  intros Hin. pose proof (isin_unique l v Hin) as E.
  unfold isin in E. apply existsb_exists in E as (w & Hw & Ew).
  exists w. split; [exact Hw|]. symmetry. apply value_eqb_kind, Ew.
Qed.

Lemma insert_sorted_same_kind b x : forall a,
  Forall (fun v => is_str v = b) a -> is_str x = b ->
  exists a', insert_sorted x a = Ok a' /\ a' <> []
             /\ Forall (fun v => is_str v = b) a'.
Proof.
  induction a as [|y a IH]; intros Ha Hx; simpl.
  - exists [x]. split; [reflexivity|]. split; [discriminate|]. constructor; auto.
  - inversion Ha as [|? ? Hy Ha']; subst.
    assert (Hlt : exists c, py_lt x y = Ok c).
    { destruct x, y; simpl in *; try discriminate; eexists; reflexivity. }
    destruct Hlt as [c ->]. simpl. destruct c.
    + eexists. split; [reflexivity|]. split; [discriminate|].
      constructor; [reflexivity|]. constructor; assumption.
    + destruct (IH Ha' eq_refl) as (a' & -> & _ & Hf). simpl.
      eexists. split; [reflexivity|]. split; [discriminate|].
      constructor; assumption.
Qed.

Lemma insert_sorted_other_kind b x a :
  a <> [] -> Forall (fun v => is_str v = b) a -> is_str x = negb b ->
  insert_sorted x a = Raise TypeError.
Proof.
  destruct a as [|y a]; [congruence|]. intros _ Ha Hx.
  inversion Ha as [|? ? Hy _]; subst. simpl.
  destruct x, y; simpl in *; try discriminate; reflexivity.
Qed.

Lemma fold_insert_raise l e :
  fold_left (fun acc x => a <- acc ;; insert_sorted x a) l (Raise e) = Raise e.
Proof. induction l as [|x l IH]; simpl; [reflexivity|exact IH]. Qed.

Lemma fold_insert_mixed l : forall a b,
  a <> [] -> Forall (fun v => is_str v = b) a ->
  (exists v, In v l /\ is_str v = negb b) ->
  fold_left (fun acc x => a <- acc ;; insert_sorted x a) l (Ok a) = Raise TypeError.
Proof.
  induction l as [|x l IH]; intros a b Hne Ha (v & Hin & Hv); [destruct Hin|].
  simpl. destruct (Bool.bool_dec (is_str x) b) as [Hx|Hx].
  - destruct (insert_sorted_same_kind x Ha Hx) as (a' & -> & Hne' & Ha').
    apply (IH a' b Hne' Ha'). exists v. split; [|exact Hv].
    destruct Hin as [<-|Hin]; [|exact Hin].
    rewrite Hx in Hv. destruct b; discriminate.
  - rewrite (insert_sorted_other_kind x Hne Ha).
    + apply fold_insert_raise.
    + destruct (is_str x), b; simpl; congruence.
Qed.

(** [sorted] on a list that holds a string and something that is not a
    string raises TypeError. *)
Lemma py_sorted_mixed l u v :
  In u l -> is_str u = true -> In v l -> is_str v = false ->
  py_sorted l = Raise TypeError.
Proof.
  intros Hu Eu Hv Ev. unfold py_sorted.
  destruct l as [|x l]; [destruct Hu|]. simpl.
  apply (fold_insert_mixed l (a := [x]) (b := is_str x)).
  - discriminate.
  - constructor; [reflexivity|constructor].
  - destruct (is_str x) eqn:Ex.
    + exists v. split; [|exact Ev]. destruct Hv as [<-|Hv]; [congruence|exact Hv].
    + exists u. split; [|exact Eu]. destruct Hu as [<-|Hu]; [congruence|exact Hu].
Qed.



(** X8. A filter added on a column that is not numeric leaves the view as it
    is: with fewer than ten distinct values it is a selection filter that
    starts with every value of the column selected, otherwise a text filter
    that starts with the empty pattern. *)
Theorem add_filter_on_object_column_keeps_view `{PyRuntime}
    (data : DataFrame) (self : FilterManager.state) (c : string) (i : nat) (t : dtype) :
  FilterManager.reachable data self ->
  FilterManager.column_selector self = Some c ->
  truthy_str c = true ->
  FilterManager.dict_mem c (FilterManager.active_filters self) = false ->
  col_pos c (columns data) = Some (i, t) ->
  is_numeric_dtype t = false ->
  fst (FilterManager._add_filter self) = Ok tt ->
  FilterManager.filtered_data (snd (FilterManager._add_filter self))
  = FilterManager.filtered_data self
  /\ exists w,
       FilterManager.active_filters (snd (FilterManager._add_filter self))
       = FilterManager.active_filters self ++ [(c, w)]
       /\ ((nunique (column_values i data) < 10
            /\ exists selected,
                 w = FilterManager.categorical selected
                 /\ forall v, In v (column_values i data) -> isin v selected = true)
           \/ (10 <= nunique (column_values i data)
               /\ w = FilterManager.text EmptyString)).
Proof.
  intros Hr Hs Ht Hm Hc Hn Hok.
  destruct (reachable_Inv Hr) as [_ Ho].
  assert (Hw : exists w,
             FilterManager._create_filter_widget self c = Ok w
             /\ ((nunique (column_values i data) < 10
                  /\ exists selected,
                       w = FilterManager.categorical selected
                       /\ forall v, In v (column_values i data) ->
                                    isin v selected = true)
                 \/ (10 <= nunique (column_values i data)
                     /\ w = FilterManager.text EmptyString))).
  { unfold FilterManager._add_filter in Hok. rewrite Hs, Ht, Hm in Hok. simpl in Hok.
    revert Hok.
    unfold FilterManager._create_filter_widget, getitem. rewrite Ho, Hc. simpl.
    rewrite Hn. destruct (Nat.ltb_spec (nunique (column_values i data)) 10) as [Hlt|Hge].
    - unfold FilterManager._create_categorical_filter.
      destruct (py_sorted (unique (column_values i data))) as [u|e] eqn:Eu; simpl;
        [|discriminate].
      intros _. eexists. split; [reflexivity|]. left. split; [exact Hlt|].
      exists u. split; [reflexivity|]. intros v Hv.
      rewrite (py_sorted_isin _ v Eu). apply isin_unique, Hv.
    - intros _. eexists. split; [reflexivity|]. right. split; [exact Hge|reflexivity]. }
  destruct Hw as (w & Hw & Hkind).
  rewrite (add_filter_new Hr Hs Ht Hm Hw). simpl.
  split; [|exists w; split; [reflexivity|exact Hkind]].
  rewrite (view_frame Hr) at 2. f_equal.
  rewrite <- (filter_true (rows (FilterManager.filtered_data self))) at 2.
  apply filter_ext_in. intros r Hin.
  assert (Hrow : In r (rows data)).
  { rewrite (reachable_view Hr) in Hin. apply filter_In in Hin. tauto. }
  unfold passes. simpl. rewrite Hc.
  destruct Hkind as [(_ & u & -> & Hall)|(_ & ->)]; [|reflexivity].
  destruct (truthy_list u); [|reflexivity].
  apply Hall. unfold column_values. apply in_map, Hrow.
Qed.

Lemma add_filter_on_object_column_keeps_view_witness :
  FilterManager.reachable (H := mini_runtime) Samples.shop region_selected
  /\ FilterManager.column_selector region_selected = Some "region"
  /\ col_pos "region" (columns Samples.shop) = Some (1, Object)
  /\ fst (FilterManager._add_filter (H := mini_runtime) region_selected) = Ok tt
  /\ FilterManager.filtered_data
       (snd (FilterManager._add_filter (H := mini_runtime) region_selected))
     = FilterManager.filtered_data region_selected.
Proof.
  assert (Hok : fst (FilterManager._add_filter (H := mini_runtime) region_selected)
                = Ok tt) by (vm_compute; reflexivity).
  split; [exact region_selected_reachable|]. split; [reflexivity|].
  split; [reflexivity|]. split; [exact Hok|].
  apply (@add_filter_on_object_column_keeps_view mini_runtime Samples.shop
           region_selected "region" 1 Object);
    try reflexivity; first [exact region_selected_reachable | exact Hok].
Defined.

(** X9. A column that is not numeric, has fewer than ten distinct values and
    holds a string next to a value that is not a string (a missing value):
    [_add_filter] raises TypeError, out of [sorted] on the distinct values,
    and the manager is left as it was, without a filter on that column. *)
Theorem add_filter_type_error_on_missing_value `{PyRuntime}
    (self : FilterManager.state) (c : string) (i : nat) (t : dtype) (u v : scalar) :
  FilterManager.column_selector self = Some c ->
  truthy_str c = true ->
  FilterManager.dict_mem c (FilterManager.active_filters self) = false ->
  col_pos c (columns (FilterManager.original_data self)) = Some (i, t) ->
  is_numeric_dtype t = false ->
  nunique (column_values i (FilterManager.original_data self)) < 10 ->
  In u (column_values i (FilterManager.original_data self)) -> is_str u = true ->
  In v (column_values i (FilterManager.original_data self)) -> is_str v = false ->
  FilterManager._add_filter self = (Raise TypeError, self).
Proof.
  intros Hs Ht Hm Hc Hn Hlt Hu Eu Hv Ev.
  unfold FilterManager._add_filter. rewrite Hs, Ht, Hm. simpl.
  unfold FilterManager._create_filter_widget, getitem. rewrite Hc. simpl. rewrite Hn.
  apply Nat.ltb_lt in Hlt. rewrite Hlt.
  unfold FilterManager._create_categorical_filter.
  destruct (unique_has_kind _ _ Hu) as (u' & Hu' & Eu').
  destruct (unique_has_kind _ _ Hv) as (v' & Hv' & Ev').
  rewrite (py_sorted_mixed _ u' v'); [reflexivity| | | |]; congruence.
Qed.

Lemma add_filter_type_error_on_missing_value_witness :
  FilterManager.column_selector name_selected = Some "name"
  /\ col_pos "name" (columns (FilterManager.original_data name_selected))
     = Some (2, Object)
  /\ nunique (column_values 2 (FilterManager.original_data name_selected)) < 10
  /\ In (VStr "anvil") (column_values 2 (FilterManager.original_data name_selected))
  /\ In VNaN (column_values 2 (FilterManager.original_data name_selected))
  /\ FilterManager._add_filter (H := mini_runtime) name_selected
     = (Raise TypeError, name_selected).
Proof.
  assert (Hlt : nunique (column_values 2 (FilterManager.original_data name_selected)) < 10)
    by (vm_compute; repeat constructor).
  assert (Ha : In (VStr "anvil")
                  (column_values 2 (FilterManager.original_data name_selected)))
    by (left; reflexivity).
  assert (Hn : In VNaN (column_values 2 (FilterManager.original_data name_selected)))
    by (right; right; left; reflexivity).
  split; [reflexivity|]. split; [reflexivity|]. split; [exact Hlt|].
  split; [exact Ha|]. split; [exact Hn|].
  apply (@add_filter_type_error_on_missing_value mini_runtime name_selected
           "name" 2 Object (VStr "anvil") VNaN);
    try reflexivity; assumption.
Defined.

(** * Further facts on the scatter plot manager *)

(** ** Refreshing the options *)

Lemma update_options_empty (data : DataFrame) (self : ScatterPlotManager.state) :
  empty data = true -> ScatterPlotManager.update_options data self = self.
Proof. intros E. unfold ScatterPlotManager.update_options. rewrite E. reflexivity. Qed.

(** What a refresh on a view that is not empty leaves behind: the four
    lists of options, and a recorded default for each axis unless the view
    has too few eligible columns for it. *)
Lemma update_options_result (data : DataFrame) (self : ScatterPlotManager.state) :
  empty data = false ->
  let s := ScatterPlotManager.update_options data self in
  ScatterPlotManager.options (ScatterPlotManager.x_selector s)
  = map Some (ScatterPlotManager.axis_cols data)
  /\ ScatterPlotManager.options (ScatterPlotManager.y_selector s)
     = map Some (ScatterPlotManager.axis_cols data)
  /\ ScatterPlotManager.options (ScatterPlotManager.size_selector s)
     = None :: map Some (ScatterPlotManager.numeric_cols data)
  /\ ScatterPlotManager.options (ScatterPlotManager.color_selector s)
     = None :: map Some
                 (ScatterPlotManager.numeric_cols data
                  ++ map (fun c => fst (snd c))
                         (ScatterPlotManager.categorical_cols data))
  /\ (ScatterPlotManager.x_column s = None -> ScatterPlotManager.axis_cols data = [])
  /\ (ScatterPlotManager.y_column s = None ->
      ScatterPlotManager.axis_cols data = []
      \/ exists c, ScatterPlotManager.axis_cols data = [c]).
Proof.
  intros E. unfold ScatterPlotManager.update_options. rewrite E.
  destruct (ScatterPlotManager.x_column self), (ScatterPlotManager.y_column self),
    (ScatterPlotManager.axis_cols data) as [|c1 [|c2 l]]; simpl;
    repeat split; try discriminate; eauto.
Qed.

(** X10. A refresh on the same view a second time changes nothing: not the
    options, not a selection, not the counter of changes. *)
Theorem update_options_idempotent (data : DataFrame) (self : ScatterPlotManager.state) :
  ScatterPlotManager.update_options data (ScatterPlotManager.update_options data self)
  = ScatterPlotManager.update_options data self.
Proof.
  destruct (empty data) eqn:E; [rewrite !update_options_empty by exact E; reflexivity|].
  pose proof (@update_options_result data self E) as R. cbv zeta in R.
  revert R. generalize (ScatterPlotManager.update_options data self). intros s R.
  destruct R as (Ox & Oy & Os & Oc & Hx & Hy).
  unfold ScatterPlotManager.update_options. rewrite E.
  set (ax := ScatterPlotManager.axis_cols data) in *.
  set (nc := ScatterPlotManager.numeric_cols data) in *.
  set (cc := ScatterPlotManager.categorical_cols data) in *.
  clearbody ax nc cc.
  destruct s as [[vx ox] [vy oy] [vs os] [vc oc] mi ma g p xc yc n].
  cbn in *. subst ox oy os oc.
  destruct xc as [cx|]; [|rewrite (Hx eq_refl)]; cbn;
    (destruct yc as [cy|]; [reflexivity|]);
    destruct (Hy eq_refl) as [->|[c ->]]; reflexivity.
Qed.



Lemma col_pos_In c cols i t :
  col_pos c cols = Some (i, t) -> In (c, t) cols.
Proof.
  revert i. induction cols as [|[c' t'] cols IH]; intros i; simpl; [discriminate|].
  destruct (String.eqb c c') eqn:E.
  - intros E'. injection E' as _ <-. apply String.eqb_eq in E. subst. left. reflexivity.
  - destruct (col_pos c cols) as [[j t'']|]; [|discriminate].
    intros E'. injection E' as _ <-. right. apply (IH j). reflexivity.
Qed.

Lemma In_in_columns c t df : In (c, t) (columns df) -> in_columns c df = true.
Proof.
  unfold in_columns. induction (columns df) as [|[c' t'] cols IH]; simpl; [tauto|].
  intros [E|Hin].
  - injection E as -> ->. rewrite String.eqb_refl. reflexivity.
  - destruct (String.eqb c c'); [reflexivity|].
    specialize (IH Hin). destruct (col_pos c cols) as [[j t'']|]; [reflexivity|discriminate].
Qed.

Lemma enumerate_In {A : Type} (l : list A) : forall k i a,
  In (i, a) (ScatterPlotManager.enumerate k l) -> nth_error l (i - k) = Some a /\ k <= i.
Proof.
  induction l as [|b l IH]; intros k i a; simpl; [tauto|].
  intros [E|Hin].
  - injection E as <- <-. rewrite Nat.sub_diag. split; [reflexivity|lia].
  - destruct (IH _ _ _ Hin) as [Hn Hk]. split; [|lia].
    replace (i - k) with (S (i - S k)) by lia. exact Hn.
Qed.

Lemma In_enumerate {A : Type} (l : list A) : forall k i a,
  nth_error l i = Some a -> In (k + i, a) (ScatterPlotManager.enumerate k l).
Proof.
  induction l as [|b l IH]; intros k i a; destruct i as [|i]; simpl; try discriminate.
  - intros E. injection E as <-. left. rewrite Nat.add_0_r. reflexivity.
  - intros E. right. replace (k + S i) with (S k + i) by lia. apply IH, E.
Qed.

Lemma col_pos_nth c cols : forall i t,
  col_pos c cols = Some (i, t) -> nth_error cols i = Some (c, t).
Proof.
  induction cols as [|[c' t'] cols IH]; intros i t; simpl; [discriminate|].
  destruct (String.eqb c c') eqn:E.
  - intros E'. injection E' as <- <-. apply String.eqb_eq in E. subst. reflexivity.
  - destruct (col_pos c cols) as [[j t'']|]; [|discriminate].
    intros E'. injection E' as <- <-. simpl. apply IH. reflexivity.
Qed.

Lemma numeric_cols_In c data :
  In c (ScatterPlotManager.numeric_cols data) <-> In (c, Number) (columns data).
Proof.
  unfold ScatterPlotManager.numeric_cols. rewrite in_map_iff. split.
  - intros ([c' t] & E & Hin). simpl in E. subst c'.
    apply filter_In in Hin as [Hin Ht]. destruct t; try discriminate. exact Hin.
  - intros Hin. exists (c, Number). split; [reflexivity|].
    apply filter_In. split; [exact Hin|reflexivity].
Qed.

Lemma categorical_cols_In data i c t :
  In (i, (c, t)) (ScatterPlotManager.categorical_cols data) ->
  nth_error (columns data) i = Some (c, t)
  /\ (t = Object \/ nunique (column_values i data) < 10).
Proof.
  unfold ScatterPlotManager.categorical_cols. intros Hin.
  apply filter_In in Hin as [Hin Hk]. simpl in Hk.
  apply enumerate_In in Hin as [Hn _]. rewrite Nat.sub_0_r in Hn.
  split; [exact Hn|]. apply orb_true_iff in Hk as [Hk|Hk].
  - left. destruct t; try discriminate. reflexivity.
  - right. apply Nat.ltb_lt. exact Hk.
Qed.

(** X12. After a refresh on a view that is not empty: both axes are offered the
    same list, in which every entry is a column of the view that is numeric
    or has fewer than ten distinct values; the size selector offers [None]
    and numeric columns only; the color selector offers [None] and columns
    of the view that are numeric, of object type or of fewer than ten
    distinct values. *)
Theorem update_options_offers_view_columns (data : DataFrame)
    (self : ScatterPlotManager.state) :
  empty data = false ->
  let self' := ScatterPlotManager.update_options data self in
  ScatterPlotManager.options (ScatterPlotManager.x_selector self')
  = ScatterPlotManager.options (ScatterPlotManager.y_selector self')
  /\ (forall o, In o (ScatterPlotManager.options (ScatterPlotManager.x_selector self')) ->
        exists c i t, o = Some c /\ nth_error (columns data) i = Some (c, t)
                      /\ (t = Number \/ nunique (column_values i data) < 10))
  /\ (forall o, In o (ScatterPlotManager.options (ScatterPlotManager.size_selector self')) ->
        o = None \/ exists c, o = Some c /\ In (c, Number) (columns data))
  /\ (forall o, In o (ScatterPlotManager.options (ScatterPlotManager.color_selector self')) ->
        o = None
        \/ exists c i t, o = Some c /\ nth_error (columns data) i = Some (c, t)
                         /\ (t = Number \/ t = Object
                             \/ nunique (column_values i data) < 10)).
Proof.
  intros E. cbv zeta.
  assert (Hopt : forall s : ScatterPlotManager.state,
             let s' := ScatterPlotManager.update_options data s in
             ScatterPlotManager.options (ScatterPlotManager.x_selector s')
             = map Some (ScatterPlotManager.axis_cols data)
             /\ ScatterPlotManager.options (ScatterPlotManager.y_selector s')
                = map Some (ScatterPlotManager.axis_cols data)
             /\ ScatterPlotManager.options (ScatterPlotManager.size_selector s')
                = None :: map Some (ScatterPlotManager.numeric_cols data)
             /\ ScatterPlotManager.options (ScatterPlotManager.color_selector s')
                = None :: map Some
                            (ScatterPlotManager.numeric_cols data
                             ++ map (fun c => fst (snd c))
                                    (ScatterPlotManager.categorical_cols data))).
  { intros s. unfold ScatterPlotManager.update_options. rewrite E.
    destruct (ScatterPlotManager.x_column s), (ScatterPlotManager.y_column s),
      (ScatterPlotManager.axis_cols data) as [|c1 [|c2 l]]; simpl; repeat split. }
  destruct (Hopt self) as (Hx & Hy & Hs & Hc). rewrite Hx, Hy, Hs, Hc.
  split; [reflexivity|]. split; [|split].
  - intros o Ho. apply in_map_iff in Ho as (c & <- & Hin).
    unfold ScatterPlotManager.axis_cols in Hin. apply in_app_or in Hin as [Hin|Hin].
    + apply numeric_cols_In in Hin. apply In_nth_error in Hin as [i Hi].
      exists c, i, Number. repeat split; [exact Hi|left; reflexivity].
    + apply in_map_iff in Hin as ([i [c' t]] & Ec & Hin). simpl in Ec. subst c'.
      apply filter_In in Hin as [Hin Hlow]. simpl in Hlow.
      apply categorical_cols_In in Hin as [Hn _].
      exists c, i, t. repeat split; [exact Hn|right; apply Nat.ltb_lt; exact Hlow].
  - intros o [<-|Ho]; [left; reflexivity|right].
    apply in_map_iff in Ho as (c & <- & Hin). exists c. split; [reflexivity|].
    apply numeric_cols_In, Hin.
  - intros o [<-|Ho]; [left; reflexivity|right].
    apply in_map_iff in Ho as (c & <- & Hin). apply in_app_or in Hin as [Hin|Hin].
    + apply numeric_cols_In in Hin. apply In_nth_error in Hin as [i Hi].
      exists c, i, Number. repeat split; [exact Hi|left; reflexivity].
    + apply in_map_iff in Hin as ([i [c' t]] & Ec & Hin). simpl in Ec. subst c'.
      apply categorical_cols_In in Hin as [Hn [Ht|Hlow]];
        exists c, i, t; repeat split; auto.
Qed.

Lemma update_options_offers_view_columns_witness :
  empty PlotSamples.varied = false
  /\ ScatterPlotManager.options
       (ScatterPlotManager.x_selector
          (ScatterPlotManager.update_options PlotSamples.varied
             ScatterPlotManager.__init__))
     = ScatterPlotManager.options
         (ScatterPlotManager.y_selector
            (ScatterPlotManager.update_options PlotSamples.varied
               ScatterPlotManager.__init__))
  /\ forall o,
       In o (ScatterPlotManager.options
               (ScatterPlotManager.size_selector
                  (ScatterPlotManager.update_options PlotSamples.varied
                     ScatterPlotManager.__init__))) ->
       o = None \/ exists c, o = Some c /\ In (c, Number) (columns PlotSamples.varied).
Proof.
  split; [reflexivity|].
  destruct (@update_options_offers_view_columns PlotSamples.varied
              ScatterPlotManager.__init__ eq_refl) as (H1 & _ & H3 & _).
  split; assumption.
Defined.

(** X13. A numeric column with fewer than ten distinct values is offered twice
    for the axes: once as a numeric column and once more among the columns
    of low cardinality. *)
Theorem low_cardinality_numeric_column_offered_twice (data : DataFrame)
    (c : string) (i : nat) :
  col_pos c (columns data) = Some (i, Number) ->
  nunique (column_values i data) < 10 ->
  exists l1 l2 l3, ScatterPlotManager.axis_cols data = l1 ++ c :: l2 ++ c :: l3.
Proof.
  intros Hc Hlow. unfold ScatterPlotManager.axis_cols.
  assert (H1 : In c (ScatterPlotManager.numeric_cols data)).
  { apply numeric_cols_In. apply (col_pos_In _ _ Hc). }
  assert (H2 : In c (map (fun x => fst (snd x))
                       (filter (fun x => ScatterPlotManager.low_cardinality data (fst x))
                               (ScatterPlotManager.categorical_cols data)))).
  { apply in_map_iff. exists (i, (c, Number)). split; [reflexivity|].
    assert (Hl : ScatterPlotManager.low_cardinality data i = true)
      by (apply Nat.ltb_lt; exact Hlow).
    apply filter_In. split; [|exact Hl].
    unfold ScatterPlotManager.categorical_cols. apply filter_In. split.
    - apply (In_enumerate (columns data) 0 i). apply col_pos_nth, Hc.
    - simpl. rewrite Hl. reflexivity. }
  apply in_split in H1 as (l1 & r1 & ->). apply in_split in H2 as (l2 & r2 & ->).
  exists l1, (r1 ++ l2), r2. rewrite <- !app_assoc. reflexivity.
Qed.

Lemma low_cardinality_numeric_column_offered_twice_witness :
  col_pos "quantity" (columns PlotSamples.varied) = Some (2, Number)
  /\ nunique (column_values 2 PlotSamples.varied) < 10
  /\ exists l1 l2 l3,
       ScatterPlotManager.axis_cols PlotSamples.varied = l1 ++ "quantity" :: l2 ++ "quantity" :: l3.
Proof.
  assert (Hlow : nunique (column_values 2 PlotSamples.varied) < 10)
    by (vm_compute; repeat constructor).
  split; [reflexivity|]. split; [exact Hlow|].
  exact (@low_cardinality_numeric_column_offered_twice PlotSamples.varied
           "quantity" 2 eq_refl Hlow).
Defined.

(** ** The sizes of the points *)











(** ** What [create_plot] returns *)









Lemma assign_column_Forall (P : string * list ScatterPlotManager.pvalue -> Prop)
    name col cs :
  (forall k, P (k, col)) -> Forall P cs ->
  Forall P (ScatterPlotManager.assign_column name col cs).
Proof.
  intros Hcol. induction 1 as [|[k c] cs Hk Hcs IH]; simpl.
  - constructor; [apply Hcol|constructor].
  - destruct (String.eqb name k); constructor; auto.
Qed.

Lemma lookup_assign_some name name' col cs :
  lookup_column name cs <> None ->
  lookup_column name (ScatterPlotManager.assign_column name' col cs) <> None.
Proof.
  intros Hl. destruct (String.eqb name name') eqn:E.
  - apply String.eqb_eq in E. subst. rewrite lookup_assign_same. discriminate.
  - rewrite (lookup_assign_other _ _ _ _ E). exact Hl.
Qed.

(** The shape that the size and color mappings keep: [n] rows in every
    column, and a column for every value dimension. *)
Lemma size_mapping_shape self data plot_rows size_col f vd f' vd' :
  ScatterPlotManager.size_mapping self data plot_rows size_col f vd = Ok (f', vd') ->
  ScatterPlotManager.pindex f' = ScatterPlotManager.pindex f
  /\ (Forall (fun kc => List.length (snd kc) = List.length plot_rows)
             (ScatterPlotManager.pcolumns f) ->
      Forall (fun kc => List.length (snd kc) = List.length plot_rows)
             (ScatterPlotManager.pcolumns f'))
  /\ ((forall v, In v vd -> lookup_column v (ScatterPlotManager.pcolumns f) <> None) ->
      forall v, In v vd' -> lookup_column v (ScatterPlotManager.pcolumns f') <> None).
Proof.
  unfold ScatterPlotManager.size_mapping.
  assert (Hsame : Ok (f, vd) = Ok (f', vd') ->
            ScatterPlotManager.pindex f' = ScatterPlotManager.pindex f
            /\ (Forall (fun kc => List.length (snd kc) = List.length plot_rows)
                       (ScatterPlotManager.pcolumns f) ->
                Forall (fun kc => List.length (snd kc) = List.length plot_rows)
                       (ScatterPlotManager.pcolumns f'))
            /\ ((forall v, In v vd ->
                           lookup_column v (ScatterPlotManager.pcolumns f) <> None) ->
                forall v, In v vd' ->
                          lookup_column v (ScatterPlotManager.pcolumns f') <> None)).
  { intros E. injection E as <- <-. repeat split; auto. }
  destruct (ScatterPlotManager.truthy size_col) as [sc|]; [|exact Hsame].
  destruct (col_pos sc (columns data)) as [[ps t]|]; [|exact Hsame].
  destruct (is_numeric_dtype t); [|exact Hsame].
  destruct (series_min _) as [mn|e]; simpl; [|discriminate].
  destruct (series_max _) as [mx|e]; simpl; [|discriminate].
  destruct (ScatterPlotManager.gt mx mn); [|exact Hsame].
  destruct mn as [mn|]; [|exact Hsame]. destruct mx as [mx|]; [|exact Hsame].
  intros E. injection E as <- <-. simpl. split; [reflexivity|]. split.
  - intros Hf. apply assign_column_Forall; [|exact Hf].
    intros k. simpl. rewrite !length_map. reflexivity.
  - intros Hv v Hin. apply in_app_or in Hin as [Hin|[<-|[]]].
    + apply lookup_assign_some, Hv, Hin.
    + rewrite lookup_assign_same. discriminate.
Qed.

Lemma color_mapping_shape data plot_rows color_col f vd :
  let r := ScatterPlotManager.color_mapping data plot_rows color_col f vd in
  ScatterPlotManager.pindex (fst r) = ScatterPlotManager.pindex f
  /\ (Forall (fun kc => List.length (snd kc) = List.length plot_rows)
             (ScatterPlotManager.pcolumns f) ->
      Forall (fun kc => List.length (snd kc) = List.length plot_rows)
             (ScatterPlotManager.pcolumns (fst r)))
  /\ ((forall v, In v vd -> lookup_column v (ScatterPlotManager.pcolumns f) <> None) ->
      forall v, In v (snd r) ->
                lookup_column v (ScatterPlotManager.pcolumns (fst r)) <> None).
Proof.
  unfold ScatterPlotManager.color_mapping.
  destruct (ScatterPlotManager.truthy color_col) as [cc|]; [|simpl; auto].
  destruct (col_pos cc (columns data)) as [[pc t]|]; [|simpl; auto].
  simpl. split; [reflexivity|]. split.
  - intros Hf. apply assign_column_Forall; [|exact Hf].
    intros k. simpl. rewrite length_map. reflexivity.
  - intros Hv v Hin. apply in_app_or in Hin as [Hin|[<-|[]]].
    + apply lookup_assign_some, Hv, Hin.
    + rewrite lookup_assign_same. discriminate.
Qed.

(** X18. Whenever [create_plot] returns a plot, the frame behind it has at least
    one row, its rows are rows of the view, every column has one cell per
    row, the two key dimensions are columns of the view, and every value
    dimension has its column in the frame. *)
Theorem create_plot_frame_shape (data : DataFrame) (self : ScatterPlotManager.state)
    (p : ScatterPlotManager.Points) :
  fst (ScatterPlotManager.create_plot data self) = ScatterPlotManager.HoloViews p ->
  ScatterPlotManager.pindex (ScatterPlotManager.pdata p) <> []
  /\ incl (ScatterPlotManager.pindex (ScatterPlotManager.pdata p)) (map index (rows data))
  /\ Forall (fun kc => List.length (snd kc)
                       = List.length (ScatterPlotManager.pindex (ScatterPlotManager.pdata p)))
            (ScatterPlotManager.pcolumns (ScatterPlotManager.pdata p))
  /\ (exists x y, ScatterPlotManager.kdims p = [x; y]
                  /\ in_columns x data = true /\ in_columns y data = true)
  /\ (forall v, In v (ScatterPlotManager.vdims p) ->
        lookup_column v (ScatterPlotManager.pcolumns (ScatterPlotManager.pdata p))
        <> None).
Proof.
  unfold ScatterPlotManager.create_plot.
  destruct (empty data); [discriminate|].
  set (self' := ScatterPlotManager.update_options data self).
  destruct (ScatterPlotManager.truthy (ScatterPlotManager.value
              (ScatterPlotManager.x_selector self'))) as [x|]; [|discriminate].
  destruct (ScatterPlotManager.truthy (ScatterPlotManager.value
              (ScatterPlotManager.y_selector self'))) as [y|]; [|discriminate].
  simpl. unfold ScatterPlotManager.try_plot.
  unfold getitem at 1, in_columns.
  destruct (col_pos x (columns data)) as [px|] eqn:Ex; [|discriminate]. simpl.
  unfold getitem at 1.
  destruct (col_pos y (columns data)) as [py|] eqn:Ey; [|discriminate]. simpl.
  destruct (ScatterPlotManager.plotted_rows (fst px) (fst py) data) as [|r0 rs] eqn:Er;
    [discriminate|].
  match goal with
  | |- context [ScatterPlotManager.size_mapping ?s ?d ?pr ?c ?f ?v] =>
      destruct (ScatterPlotManager.size_mapping s d pr c f v) as [[f1 vd1]|e] eqn:Es;
        [|discriminate];
      destruct (size_mapping_shape _ _ _ _ _ _ Es) as (Hi1 & Hf1 & Hv1)
  end.
  cbn [bind fst snd].
  match goal with
  | |- context [ScatterPlotManager.color_mapping ?d ?pr ?c ?f ?v] =>
      destruct (color_mapping_shape d pr c f v) as (Hi2 & Hf2 & Hv2);
      destruct (ScatterPlotManager.color_mapping d pr c f v) as [f2 vd2]
  end.
  cbn [fst snd] in *.
  match goal with
  | |- context [bind ?m _] => destruct m as [[[[oc om] ob] ol]|e]; [|discriminate]
  end.
  cbn [bind]. intros E. injection E as <-. simpl.
  rewrite Hi2, Hi1. simpl.
  split; [discriminate|]. split; [|split; [|split]].
  - intros n Hn. apply in_map_iff.
    assert (Hn' : In n (map index (r0 :: rs))) by exact Hn.
    apply in_map_iff in Hn' as (r & <- & Hr). exists r. split; [reflexivity|].
    rewrite <- Er in Hr. apply filter_In in Hr. tauto.
  - rewrite length_map.
    apply Hf2, Hf1. simpl. repeat constructor; simpl; rewrite length_map; reflexivity.
  - exists x, y. rewrite Ex, Ey. repeat split.
  - apply Hv2, Hv1. intros v [].
Qed.

Lemma create_plot_frame_shape_witness :
  exists p,
    fst (ScatterPlotManager.create_plot PlotSamples.varied
           (PlotSamples.sized_by_quantity PlotSamples.varied))
    = ScatterPlotManager.HoloViews p
    /\ ScatterPlotManager.pindex (ScatterPlotManager.pdata p) <> []
    /\ forall v, In v (ScatterPlotManager.vdims p) ->
         lookup_column v (ScatterPlotManager.pcolumns (ScatterPlotManager.pdata p))
         <> None.
Proof.
  eexists. split; [reflexivity|].
  match goal with
  | |- ?a <> [] /\ _ =>
      destruct (@create_plot_frame_shape PlotSamples.varied
                  (PlotSamples.sized_by_quantity PlotSamples.varied) _ eq_refl)
        as (H1 & _ & _ & _ & H5)
  end.
  split; assumption.
Defined.

(** * Further facts on the generated frame *)

Lemma parse_digits_zeros k s :
  parse_digits (zeros k ++ s) = parse_digits s.
Proof.
  unfold parse_digits. induction k as [|k IH]; simpl; [reflexivity|].
  destruct (NilEmpty.uint_of_string (zeros k ++ s)) as [d|] eqn:E;
    destruct (NilEmpty.uint_of_string s) as [d'|]; simpl in *; try discriminate;
    [|reflexivity].
  injection IH as IH. f_equal. rewrite <- IH. reflexivity.
Qed.

Lemma parse_digits_str_int i : parse_digits (DataGenerator.str_int i) = Some i.
Proof.
  unfold parse_digits, DataGenerator.str_int.
  pose proof (DecimalNat.Unsigned.of_to i) as Hof.
  destruct (Nat.to_uint i) as [|d|d|d|d|d|d|d|d|d|d] eqn:E;
    try (unfold NilZero.string_of_uint; rewrite NilEmpty.usu; simpl; f_equal; exact Hof).
  simpl. f_equal. exact Hof.
Qed.

(** The digits of a product name read back as the row number. *)
Lemma parse_format_04d i : parse_digits (DataGenerator.format_04d i) = Some i.
Proof.
  unfold DataGenerator.format_04d. rewrite parse_digits_zeros. apply parse_digits_str_int.
Qed.

Lemma product_name_inj i j :
  DataGenerator.product_name i = DataGenerator.product_name j -> i = j.
Proof.
  unfold DataGenerator.product_name. simpl. intros E.
  injection E as E. apply (f_equal parse_digits) in E.
  rewrite !parse_format_04d in E. injection E as E. exact E.
Qed.

Lemma description_inj i j :
  DataGenerator.description i = DataGenerator.description j -> i = j.
Proof.
  unfold DataGenerator.description. simpl. intros E.
  injection E as E. apply (f_equal parse_digits) in E.
  rewrite !parse_digits_str_int in E. injection E as E. exact E.
Qed.

Lemma NoDup_map_inj {A B : Type} (f : A -> B) (l : list A) :
  (forall a b, f a = f b -> a = b) -> NoDup l -> NoDup (map f l).
Proof.
  intros Hinj. induction 1 as [|a l Ha _ IH]; simpl; constructor; [|exact IH].
  intros Hin. apply in_map_iff in Hin as (b & E & Hb). apply Hinj in E. subst. auto.
Qed.

Lemma isin_strs s l : isin (VStr s) (map VStr l) = true -> In s l.
Proof.
  induction l as [|a l IH]; simpl; [discriminate|].
  intros E. apply orb_true_iff in E as [E|E].
  - left. symmetry. apply String.eqb_eq. exact E.
  - right. apply IH, E.
Qed.

Lemma unique_acc_distinct l : forall seen,
  NoDup l -> (forall s, In s l -> ~ In s seen) ->
  unique_acc (map VStr seen) (map VStr l) = map VStr l.
Proof.
  induction l as [|a l IH]; intros seen Hnd Hdis; simpl; [reflexivity|].
  inversion Hnd as [|? ? Ha Hnd']; subst.
  destruct (isin (VStr a) (map VStr seen)) eqn:E.
  - exfalso. apply isin_strs in E. apply (Hdis a); [left; reflexivity|exact E].
  - f_equal. apply (IH (a :: seen) Hnd').
    intros s Hs [<-|Hin]; [exact (Ha Hs)|]. apply (Hdis s); [right; exact Hs|exact Hin].
Qed.

(** [nunique] of a column of pairwise different strings is its length. *)
Lemma nunique_distinct l : NoDup l -> nunique (map VStr l) = List.length l.
Proof.
  intros Hnd. unfold nunique, unique.
  replace (filter (fun v => negb (isna v)) (map VStr l)) with (map VStr l).
  - change (unique_acc [] (map VStr l)) with (unique_acc (map VStr []) (map VStr l)).
    rewrite (@unique_acc_distinct l [] Hnd); [apply length_map|].
    intros s _ [].
  - clear Hnd. induction l as [|a l IH]; simpl; [reflexivity|]. f_equal. exact IH.
Qed.

Lemma generated_names draw n :
  column_values 8 (DataGenerator.generate_example_data draw n)
  = map VStr (map DataGenerator.product_name (seq 0 n))
  /\ column_values 9 (DataGenerator.generate_example_data draw n)
     = map VStr (map DataGenerator.description (seq 0 n)).
Proof.
  unfold column_values, DataGenerator.generate_example_data. simpl.
  rewrite !map_map. split; reflexivity.
Qed.

Lemma generated_nunique draw n :
  NoDup (map DataGenerator.product_name (seq 0 n))
  /\ NoDup (map DataGenerator.description (seq 0 n))
  /\ nunique (column_values 8 (DataGenerator.generate_example_data draw n)) = n
  /\ nunique (column_values 9 (DataGenerator.generate_example_data draw n)) = n.
Proof.
  destruct (generated_names draw n) as [E8 E9]. rewrite E8, E9.
  assert (Hp : NoDup (map DataGenerator.product_name (seq 0 n)))
    by (apply NoDup_map_inj; [apply product_name_inj|apply seq_NoDup]).
  assert (Hd : NoDup (map DataGenerator.description (seq 0 n)))
    by (apply NoDup_map_inj; [apply description_inj|apply seq_NoDup]).
  split; [exact Hp|]. split; [exact Hd|]. split.
  - rewrite (nunique_distinct Hp), !length_map. apply length_seq.
  - rewrite (nunique_distinct Hd), !length_map. apply length_seq.
Qed.

(** X19. Whatever the sample size and the random draws, the generated frame has
    one row per sample, numbered from 0, and the product names and the
    descriptions are pairwise different: both columns have as many distinct
    values as the frame has rows. *)
Theorem generated_text_columns_distinct (draw : nat -> DataGenerator.Draw) (n : nat) :
  map index (rows (DataGenerator.generate_example_data draw n)) = seq 0 n
  /\ col_pos "product_name" (columns (DataGenerator.generate_example_data draw n))
     = Some (8, Object)
  /\ col_pos "description" (columns (DataGenerator.generate_example_data draw n))
     = Some (9, Object)
  /\ NoDup (column_values 8 (DataGenerator.generate_example_data draw n))
  /\ NoDup (column_values 9 (DataGenerator.generate_example_data draw n))
  /\ nunique (column_values 8 (DataGenerator.generate_example_data draw n)) = n
  /\ nunique (column_values 9 (DataGenerator.generate_example_data draw n)) = n.
Proof.
  destruct (generated_nunique draw n) as (Hp & Hd & N8 & N9).
  destruct (generated_names draw n) as [E8 E9].
  split; [|split; [reflexivity|split; [reflexivity|split; [|split; [|split]]]]];
    try assumption.
  - unfold DataGenerator.generate_example_data. cbn [rows]. rewrite map_map.
    cbn [index]. apply map_id.
  - rewrite E8. apply NoDup_map_inj; [|exact Hp]. intros a b E. injection E as E. exact E.
  - rewrite E9. apply NoDup_map_inj; [|exact Hd]. intros a b E. injection E as E. exact E.
Qed.

(** X20. On a generated frame of at least ten rows, a filter added on
    [product_name] is a text filter with the empty pattern, and adding it
    leaves the whole frame in the view. *)
Theorem generated_product_name_gets_text_filter `{PyRuntime}
    (draw : nat -> DataGenerator.Draw) (n : nat) :
  10 <= n ->
  let data := DataGenerator.generate_example_data draw n in
  let self := run [FilterManager.SelectColumn "product_name"; FilterManager.AddFilter]
                  (FilterManager.__init__ data) in
  FilterManager.active_filters self
  = [("product_name", FilterManager.text EmptyString)]
  /\ FilterManager.filtered_data self = data.
Proof.
  intros Hn data self. subst self. unfold run. cbn [fold_left FilterManager.handle].
  assert (Hsel : snd (FilterManager.select_column "product_name"
                        (FilterManager.__init__ data))
                 = FilterManager.set_column_selector (FilterManager.__init__ data)
                     (Some "product_name")) by reflexivity.
  rewrite Hsel.
  assert (Hw : FilterManager._create_filter_widget
                 (FilterManager.set_column_selector (FilterManager.__init__ data)
                    (Some "product_name")) "product_name"
               = Ok (FilterManager.text EmptyString)).
  { unfold FilterManager._create_filter_widget, getitem.
    cbn [FilterManager.original_data FilterManager.set_column_selector
         FilterManager.__init__].
    change (col_pos "product_name" (columns data)) with (Some (8, Object)).
    cbn [bind fst snd is_numeric_dtype]. subst data.
    destruct (generated_nunique draw n) as (_ & _ & -> & _).
    destruct (Nat.ltb_spec n 10); [lia|reflexivity]. }
  unfold FilterManager._add_filter.
  cbn [FilterManager.column_selector FilterManager.set_column_selector
       FilterManager.active_filters FilterManager.__init__
       truthy_str FilterManager.dict_mem existsb negb andb].
  rewrite Hw. cbn [FilterManager.dict_set]. unfold FilterManager._apply_filters.
  cbn [FilterManager.active_filters FilterManager.set_active_filters
       FilterManager.original_data FilterManager.set_column_selector
       FilterManager.__init__
       FilterManager.for_filters FilterManager.apply_filter truthy_str bind].
  cbn [snd FilterManager.active_filters FilterManager.filtered_data
       FilterManager.set_filtered_data].
  split; reflexivity.
Qed.

Lemma generated_product_name_gets_text_filter_witness :
  10 <= 10
  /\ forall draw : nat -> DataGenerator.Draw,
       FilterManager.active_filters
         (run (H := mini_runtime)
            [FilterManager.SelectColumn "product_name"; FilterManager.AddFilter]
            (FilterManager.__init__ (DataGenerator.generate_example_data draw 10)))
       = [("product_name", FilterManager.text EmptyString)]
       /\ FilterManager.filtered_data
            (run (H := mini_runtime)
               [FilterManager.SelectColumn "product_name"; FilterManager.AddFilter]
               (FilterManager.__init__ (DataGenerator.generate_example_data draw 10)))
          = DataGenerator.generate_example_data draw 10.
Proof.
  split; [apply Nat.le_refl|].
  intros draw.
  apply (@generated_product_name_gets_text_filter mini_runtime draw 10).
  apply Nat.le_refl.
Defined.
